(** * Gemini issue triage: model discovery and the triage run

    A shallow embedding of [.github/scripts/gemini_issue_triage.py].

    The script is dynamically typed: the body of the model-list response is
    whatever [resp.json()] decodes, so the embedding works on decoded Python
    values ([pyval]) and writes out which operations raise.  Exceptions are
    values of an error monad, [print] and the HTTP calls are recorded in a
    trace, and the remote services are an oracle ([net]) that answers each
    request with a response or with a raised transport error. *)

From Stdlib Require Import String Ascii List ZArith Bool Lia.
From Stdlib Require Import Floats.SpecFloat DecimalString.
Import ListNotations.

Local Open Scope string_scope.
Local Open Scope list_scope.
Local Open Scope Z_scope.

Local Set Warnings "-register-all".

(** ** Python values decoded from JSON *)

Module Py.

(** What [json.loads] produces: [None], [bool], [int], [float], [str], [list]
    and [dict] with [str] keys.  A [dict] is kept as an association list in
    insertion order; the first binding of a key is the one [get] sees. *)
Inductive pyval : Type :=
| PyNone
| PyBool (b : bool)
| PyInt (z : Z)
| PyFloat (f : spec_float)
| PyStr (s : string)
| PyList (items : list pyval)
| PyDict (entries : list (string * pyval)).

(** The exception classes the script can meet.  All of them derive from
    [Exception]; [SystemExit] (raised by [sys.exit]) does not and is a
    separate outcome of a run, see [res] below.  [KeyboardInterrupt], which
    does not either, is not among them: [exn], [net] and the functions on
    them describe runs that the user does not interrupt, and the
    interrupted ones are in [Signals]. *)
Inductive exn_class : Type :=
| RequestException   (* requests: connection error, timeout, ... *)
| HTTPError          (* requests: raise_for_status *)
| JSONDecodeError    (* requests: resp.json() on a body that is not JSON *)
| AttributeError
| TypeError
| KeyError
| IndexError.

Record exn : Type := mkExn { exn_cls : exn_class; exn_msg : string }.

(** [isinstance(e, Exception)] *)
Definition is_Exception (c : exn_class) : bool :=
  match c with
  | RequestException | HTTPError | JSONDecodeError
  | AttributeError | TypeError | KeyError | IndexError => true
  end.

(** Pure evaluation that may raise. *)
Inductive result (A : Type) : Type :=
| Ok (a : A)
| Raise (e : exn).
Arguments Ok {A} a.
Arguments Raise {A} e.

Definition rbind {A B} (m : result A) (k : A -> result B) : result B :=
  match m with
  | Ok a => k a
  | Raise e => Raise e
  end.

Declare Scope result_scope.
Delimit Scope result_scope with result.
Notation "x <- m ;; k" := (rbind m (fun x => k))
  (at level 100, m at next level, right associativity) : result_scope.

(** [type(v).__name__], used in the texts of the interpreter's errors (the
    wording is CPython 3.12's; only the class of an error decides what the
    script does with it). *)
Definition type_name (v : pyval) : string :=
  match v with
  | PyNone => "NoneType"
  | PyBool _ => "bool"
  | PyInt _ => "int"
  | PyFloat _ => "float"
  | PyStr _ => "str"
  | PyList _ => "list"
  | PyDict _ => "dict"
  end.

(** [bool(v)] *)
Definition truthy (v : pyval) : bool :=
  match v with
  | PyNone => false
  | PyBool b => b
  | PyInt z => negb (z =? 0)
  | PyFloat (S754_zero _) => false
  | PyFloat _ => true
  | PyStr s => negb (String.eqb s "")
  | PyList l => match l with [] => false | _ :: _ => true end
  | PyDict d => match d with [] => false | _ :: _ => true end
  end.

(** [a or b] *)
Definition py_or (a b : pyval) : pyval := if truthy a then a else b.

(** [needle in hay] on two [str]: substring search. *)
Fixpoint contains (needle hay : string) : bool :=
  String.prefix needle hay
  || match hay with
     | EmptyString => false
     | String _ rest => contains needle rest
     end.

Fixpoint lookup (key : string) (d : list (string * pyval)) : option pyval :=
  match d with
  | [] => None
  | (k, v) :: rest => if String.eqb key k then Some v else lookup key rest
  end.

(** [v.get(key, default)].  Only [dict] has the method. *)
Definition py_get (v : pyval) (key : string) (default : pyval) : result pyval :=
  match v with
  | PyDict d => Ok (match lookup key d with Some x => x | None => default end)
  | _ => Raise (mkExn AttributeError
                  ("'" ++ type_name v ++ "' object has no attribute 'get'"))
  end.

(** The one-character strings of [s]; a string here is a sequence of bytes,
    so a character outside ASCII shows as several of them. *)
Fixpoint chars (s : string) : list pyval :=
  match s with
  | EmptyString => []
  | String c rest => PyStr (String c EmptyString) :: chars rest
  end.

(** [iter(v)], forced: the elements of a [list], the keys of a [dict], the
    characters of a [str]. *)
Definition py_iter (v : pyval) : result (list pyval) :=
  match v with
  | PyList l => Ok l
  | PyDict d => Ok (map (fun kv => PyStr (fst kv)) d)
  | PyStr s => Ok (chars s)
  | _ => Raise (mkExn TypeError
                  ("'" ++ type_name v ++ "' object is not iterable"))
  end.

(** [PyStr needle == v] *)
Definition str_eq (needle : string) (v : pyval) : bool :=
  match v with
  | PyStr s => String.eqb needle s
  | _ => false
  end.

(** [needle in v] for a [str] needle: substring of a [str], element of a
    [list], key of a [dict]; anything else is not a container. *)
Definition py_in (needle : string) (v : pyval) : result bool :=
  match v with
  | PyStr s => Ok (contains needle s)
  | PyList l => Ok (existsb (str_eq needle) l)
  | PyDict d => Ok (existsb (fun kv => String.eqb needle (fst kv)) d)
  | _ => Raise (mkExn TypeError
                  ("argument of type '" ++ type_name v ++ "' is not iterable"))
  end.

(** [v[key]] with a [str] key. *)
Definition py_getitem_key (v : pyval) (key : string) : result pyval :=
  match v with
  | PyDict d =>
      match lookup key d with
      | Some x => Ok x
      | None => Raise (mkExn KeyError ("'" ++ key ++ "'"))
      end
  | PyList _ =>
      Raise (mkExn TypeError "list indices must be integers or slices, not str")
  | PyStr _ =>
      Raise (mkExn TypeError "string indices must be integers, not 'str'")
  | _ => Raise (mkExn TypeError
                  ("'" ++ type_name v ++ "' object is not subscriptable"))
  end.

(** [v[0]].  A decoded [dict] has only [str] keys, so [0] is never one. *)
Definition py_getitem_0 (v : pyval) : result pyval :=
  match v with
  | PyList l =>
      match l with
      | x :: _ => Ok x
      | [] => Raise (mkExn IndexError "list index out of range")
      end
  | PyStr s =>
      match s with
      | String c _ => Ok (PyStr (String c EmptyString))
      | EmptyString => Raise (mkExn IndexError "string index out of range")
      end
  | PyDict _ => Raise (mkExn KeyError "0")
  | _ => Raise (mkExn TypeError
                  ("'" ++ type_name v ++ "' object is not subscriptable"))
  end.

End Py.
Export Py.

Local Open Scope result_scope.

(** ** Effects: output, HTTP and process exit *)

Module IO.

(** An f-string (or [str.format] result) is kept as its segments: literal
    text and interpolated values, whose [str()] is left unrendered. *)
Inductive piece : Type :=
| Lit (s : string)
| Fmt (v : pyval).

Definition fstring : Type := list piece.

(** The [json=] argument of [requests.post]. *)
Inductive payload : Type :=
| JText (s : fstring)
| JList (items : list payload)
| JDict (entries : list (string * payload)).

(** A [requests.Response], as far as the script looks at it; [json] is the
    outcome of calling [resp.json()]. *)
Record response : Type := mkResponse {
  status_code : Z;
  reason : string;
  resp_url : string;
  text : string;
  json : result pyval
}.

(** The remote side: what a request is answered with, a response or an
    exception raised by the transport (refused connection, timeout, ...). *)
Record net : Type := mkNet {
  http_get : fstring -> result response;
  http_post : fstring -> list (string * fstring) -> payload -> result response
}.

Inductive event : Type :=
| EvPrint (line : fstring)
| EvGet (url : fstring)
| EvPost (url : fstring) (headers : list (string * fstring)) (body : payload).

(** How a piece of the script ends: with a value, with a raised exception, or
    with [sys.exit(code)]. *)
Inductive res (A : Type) : Type :=
| Val (a : A)
| Exc (e : exn)
| Exit (code : Z).
Arguments Val {A} a.
Arguments Exc {A} e.
Arguments Exit {A} code.

(** A computation: the events it performed, in order, and how it ended. *)
Definition M (A : Type) : Type := (list event * res A)%type.

Definition ret {A} (a : A) : M A := ([], Val a).

Definition bind {A B} (m : M A) (k : A -> M B) : M B :=
  match m with
  | (t, Val a) => let (t', r) := k a in (t ++ t', r)
  | (t, Exc e) => (t, Exc e)
  | (t, Exit c) => (t, Exit c)
  end.

Definition lift {A} (r : result A) : M A :=
  match r with
  | Ok a => ([], Val a)
  | Raise e => ([], Exc e)
  end.

(** [print(line)].  Encoding the line for the terminal is not modelled. *)
Definition print (line : fstring) : M unit := ([EvPrint line], Val tt).

Definition sys_exit {A} (code : Z) : M A := ([], Exit code).

Definition requests_get (n : net) (url : fstring) : M response :=
  bind ([EvGet url], Val tt) (fun _ => lift (http_get n url)).

Definition requests_post (n : net) (url : fstring)
    (headers : list (string * fstring)) (body : payload) : M response :=
  bind ([EvPost url headers body], Val tt)
       (fun _ => lift (http_post n url headers body)).

(** [try: body / except <classes> as exc: handler exc] *)
Definition try_except {A} (body : M A) (catches : exn_class -> bool)
    (handler : exn -> M A) : M A :=
  match body with
  | (t, Exc e) =>
      if catches (exn_cls e)
      then let (t', r) := handler e in (t ++ t', r)
      else (t, Exc e)
  | other => other
  end.

Definition string_of_Z (z : Z) : string := NilZero.string_of_int (Z.to_int z).

(** [Response.raise_for_status()] of requests: an [HTTPError] for a 4xx or
    5xx status, nothing otherwise. *)
Definition raise_for_status (r : response) : result unit :=
  if (400 <=? status_code r) && (status_code r <? 500) then
    Raise (mkExn HTTPError
             (string_of_Z (status_code r) ++ " Client Error: " ++ reason r
              ++ " for url: " ++ resp_url r))
  else if (500 <=? status_code r) && (status_code r <? 600) then
    Raise (mkExn HTTPError
             (string_of_Z (status_code r) ++ " Server Error: " ++ reason r
              ++ " for url: " ++ resp_url r))
  else Ok tt.

(** The status the interpreter process ends with: 0 when the script runs to
    its end, the argument of [sys.exit], 1 after an uncaught exception. *)
Definition exit_status {A} (r : res A) : Z :=
  match r with
  | Val _ => 0
  | Exit c => c
  | Exc _ => 1
  end.

Definition is_http (ev : event) : bool :=
  match ev with
  | EvPrint _ => false
  | EvGet _ | EvPost _ _ _ => true
  end.

End IO.
Export IO.

Declare Scope io_scope.
Delimit Scope io_scope with io.
Notation "x <- m ;; k" := (bind m (fun x => k))
  (at level 100, m at next level, right associativity) : io_scope.

(** ** The script *)

Module Triage.

Definition PREFERRED_MODEL : string := "models/gemini-2.5-flash".
Definition LIST_URL : string :=
  "https://generativelanguage.googleapis.com/v1beta/models".

(** [GENERATE_PATH.format(model=model)] *)
Definition GENERATE_PATH (model : pyval) : fstring :=
  [Lit "https://generativelanguage.googleapis.com/v1beta/"; Fmt model;
   Lit ":generateContent"].

(** *** [discover_model] *)

(** [any(needle in m for m in methods)]: stops at the first hit, raises if a
    test before it raises. *)
Fixpoint any_in (needle : string) (methods : list pyval) : result bool :=
  match methods with
  | [] => Ok false
  | m :: rest =>
      hit <- py_in needle m ;;
      if hit then Ok true else any_in needle rest
  end.

(** Lines 19-21. *)
Definition supports_generate (model : pyval) : result bool :=
  got <- py_get model "supportedGenerationMethods" (PyList []) ;;
  let methods := py_or got (PyList []) in
  ms <- py_iter methods ;;
  any_in "generateContent" ms.

(** Line 23:
    [[m.get("name") for m in models if m.get("name") and supports_generate(m)]].
    [and] does not call [supports_generate] when the name is falsy. *)
Fixpoint candidate_names (models : list pyval) : result (list pyval) :=
  match models with
  | [] => Ok []
  | m :: rest =>
      name <- py_get m "name" PyNone ;;
      keep <- (if truthy name then supports_generate m else Ok false) ;;
      tl <- candidate_names rest ;;
      Ok (if keep then name :: tl else tl)
  end.

(** Lines 25-27: [[n for n in names if needle in n]]. *)
Fixpoint names_containing (needle : string) (names : list pyval)
  : result (list pyval) :=
  match names with
  | [] => Ok []
  | n :: rest =>
      hit <- py_in needle n ;;
      tl <- names_containing needle rest ;;
      Ok (if hit then n :: tl else tl)
  end.

(** Lines 23-35, on the value bound to [models] at line 17. *)
Definition select_model (models : pyval) : result pyval :=
  ms <- py_iter models ;;
  names <- candidate_names ms ;;
  flash_25 <- names_containing "gemini-2.5-flash" names ;;
  flash_any <- names_containing "flash" names ;;
  pro_any <- names_containing "pro" names ;;
  match flash_25 with
  | n :: _ => Ok n
  | [] =>
      match flash_any with
      | n :: _ => Ok n
      | [] =>
          match pro_any with
          | n :: _ => Ok n
          | [] =>
              match names with
              | n :: _ => Ok n
              | [] => Ok (PyStr PREFERRED_MODEL)
              end
          end
      end
  end.

(** [f"{LIST_URL}?key={api_key}"] *)
Definition list_url (api_key : string) : fstring :=
  [Lit LIST_URL; Lit "?key="; Lit api_key].

(** Lines 15-17: the value bound to [models]. *)
Definition fetch_models (n : net) (api_key : string) : M pyval :=
  (resp <- requests_get n (list_url api_key) ;;
   lift (_ <- raise_for_status resp ;;
         body <- json resp ;;
         py_get body "models" (PyList []))%result)%io.

(** The line printed by the handler at line 37. *)
Definition warning (exc : exn) : fstring :=
  [Lit "Warning: model discovery failed, defaulting to ";
   Lit PREFERRED_MODEL; Lit ". Error: "; Lit (exn_msg exc)].

(** The [try] block, lines 15-35. *)
Definition discover_model_try (n : net) (api_key : string) : M pyval :=
  (models <- fetch_models n api_key ;;
   lift (select_model models))%io.

Definition discover_model (n : net) (api_key : string) : M pyval :=
  try_except (discover_model_try n api_key) is_Exception
    (fun exc => (_ <- print (warning exc) ;; ret (PyStr PREFERRED_MODEL))%io).

(** *** [main] *)

Definition environ : Type := string -> option string.

(** [os.environ.get(name, "")] *)
Definition environ_get_or_empty (env : environ) (name : string) : string :=
  match env name with
  | Some v => v
  | None => ""
  end.

Definition nl : string := String (ascii_of_nat 10) EmptyString.

Definition system_instruction : string :=
  ("You are a senior technical project manager. The repository is an iOS SwiftUI app (ohMyTss) that syncs "
  ++ "HealthKit + Strava workouts, computes TSS/CTL/ATL/TSB, Body Battery readiness, and shows Today/History "
  ++ "views. When triaging issues, capture steps to reproduce, expected vs. actual, data sources affected "
  ++ "(HealthKit/Strava), and any tests to add (unit/UI). Output a clear Markdown checklist only—no intro text.")%string.

(** The tuple of the [except] clause at line 84. *)
Definition parse_errors (c : exn_class) : bool :=
  match c with
  | KeyError | IndexError | TypeError => true
  | _ => false
  end.

(** Line 83: [result["candidates"][0]["content"]["parts"][0]["text"]]. *)
Definition checklist_of (result : pyval) : Py.result pyval :=
  c <- py_getitem_key result "candidates" ;;
  c0 <- py_getitem_0 c ;;
  content <- py_getitem_key c0 "content" ;;
  parts <- py_getitem_key content "parts" ;;
  p0 <- py_getitem_0 parts ;;
  py_getitem_key p0 "text".

(** [url] of line 54. *)
Definition generate_url (model_name : pyval) (api_key : string) : fstring :=
  GENERATE_PATH model_name ++ [Lit "?key="; Lit api_key].

(** [payload] and [headers] of lines 62-74. *)
Definition generate_payload (issue_title issue_body : string) : payload :=
  let user_content :=
    ("Title: " ++ issue_title ++ nl ++ nl ++ "Description:" ++ nl
     ++ issue_body)%string in
  JDict [("contents",
          JList [JDict [("parts",
                         JList [JDict [("text",
                                        JText [Lit (system_instruction ++ nl ++ nl
                                                    ++ user_content)%string])]])]])].

Definition generate_headers : list (string * fstring) :=
  [("Content-Type", [Lit "application/json"])].

(** Lines 88-93. *)
Definition gh_headers (gh_token : string) : list (string * fstring) :=
  [("Authorization", [Lit "Bearer "; Lit gh_token]);
   ("Accept", [Lit "application/vnd.github.v3+json"])].

Definition comment_url (repo issue_number : string) : fstring :=
  [Lit "https://api.github.com/repos/"; Lit repo; Lit "/issues/";
   Lit issue_number; Lit "/comments"].

Definition comment_data (ai_checklist : pyval) : payload :=
  JDict [("body", JText [Lit ("### ♊ Gemini Action Plan" ++ nl ++ nl)%string;
                         Fmt ai_checklist])].

(** Lines 49-51. *)
Definition missing_credentials : M unit :=
  (_ <- print [Lit "Missing GEMINI_API_KEY or GITHUB_TOKEN"] ;;
   sys_exit 1)%io.

(** Lines 53-98, with both credentials at hand. *)
Definition triage (n : net)
    (api_key gh_token issue_title issue_body repo issue_number : string)
  : M unit :=
  (model_name <- discover_model n api_key ;;
   let url := generate_url model_name api_key in
   _ <- print [Lit "Sending request to Gemini with model: "; Fmt model_name;
               Lit " ..."] ;;
   response <- requests_post n url generate_headers
                 (generate_payload issue_title issue_body) ;;
   _ <- (if negb (status_code response =? 200)
         then (_ <- print [Lit "Error: "; Lit (text response)] ;; sys_exit 1)
         else ret tt) ;;
   result <- lift (json response) ;;
   ai_checklist <-
     try_except (lift (checklist_of result)) parse_errors
       (fun _ => _ <- print [Lit "Error parsing Gemini response"] ;; sys_exit 1) ;;
   _ <- print [Lit "Posting to GitHub..."] ;;
   gh_response <- requests_post n (comment_url repo issue_number)
                    (gh_headers gh_token) (comment_data ai_checklist) ;;
   _ <- lift (raise_for_status gh_response) ;;
   print [Lit "Done!"])%io.

(** Lines 41-98.  [not api_key or not gh_token] holds when either variable
    is unset or empty. *)
Definition main (env : environ) (n : net) : M unit :=
  let api_key := env "GEMINI_API_KEY" in
  let issue_title := environ_get_or_empty env "ISSUE_TITLE" in
  let issue_body := environ_get_or_empty env "ISSUE_BODY" in
  let repo := environ_get_or_empty env "REPO_FULL_NAME" in
  let issue_number := environ_get_or_empty env "ISSUE_NUMBER" in
  let gh_token := env "GITHUB_TOKEN" in
  match api_key, gh_token with
  | Some key, Some token =>
      if String.eqb key "" || String.eqb token ""
      then missing_credentials
      else triage n key token issue_title issue_body repo issue_number
  | _, _ => missing_credentials
  end.

End Triage.
Export Triage.

(** ** Model descriptors as the API documents them

    The selector is written for the model-list schema: a descriptor is an
    object whose [name], when present, is a string (or null) and whose
    [supportedGenerationMethods], when present, is a list of strings (or
    null).  [wf_descriptor] recognises such values among the decoded ones;
    the functions below read them the way the selector's description does. *)

Module Descriptor.

Definition is_str (v : pyval) : bool :=
  match v with
  | PyStr _ => true
  | _ => false
  end.

Definition wf_name (field : option pyval) : bool :=
  match field with
  | None | Some PyNone | Some (PyStr _) => true
  | Some _ => false
  end.

Definition wf_methods (field : option pyval) : bool :=
  match field with
  | None | Some PyNone => true
  | Some (PyList l) => forallb is_str l
  | Some _ => false
  end.

Definition wf_descriptor (m : pyval) : bool :=
  match m with
  | PyDict d =>
      wf_name (lookup "name" d)
      && wf_methods (lookup "supportedGenerationMethods" d)
  | _ => false
  end.

Fixpoint strings_of (l : list pyval) : list string :=
  match l with
  | [] => []
  | PyStr s :: rest => s :: strings_of rest
  | _ :: rest => strings_of rest
  end.

(** The descriptor's name; [""] stands for "no name". *)
Definition name_of (m : pyval) : string :=
  match m with
  | PyDict d =>
      match lookup "name" d with
      | Some (PyStr s) => s
      | _ => ""
      end
  | _ => ""
  end.

(** The entries of [supportedGenerationMethods]; none when the field is
    absent or null. *)
Definition methods_of (m : pyval) : list string :=
  match m with
  | PyDict d =>
      match lookup "supportedGenerationMethods" d with
      | Some (PyList l) => strings_of l
      | _ => []
      end
  | _ => []
  end.

(** [sub] occurs in [s]. *)
Definition substring_of (sub s : string) : Prop :=
  exists pre post : string, s = (pre ++ sub ++ post)%string.

(** Step 1 of the selector's description: generation-capable and named. *)
Definition supports (m : pyval) : bool :=
  existsb (contains "generateContent") (methods_of m).

Definition is_candidate (m : pyval) : bool :=
  negb (String.eqb (name_of m) "") && supports m.

Definition filtered_names (ms : list pyval) : list string :=
  map name_of (filter is_candidate ms).

(** [v] is the first element of [names], in list order, that satisfies [p]. *)
Definition first_with (p : string -> bool) (v : string) (names : list string)
  : Prop :=
  exists before after : list string,
    names = before ++ v :: after
    /\ p v = true
    /\ forall x, In x before -> p x = false.

Definition some_with (p : string -> bool) (names : list string) : Prop :=
  exists x, In x names /\ p x = true.

Definition none_with (p : string -> bool) (names : list string) : Prop :=
  forall x, In x names -> p x = false.

(** Steps 2 to 5 of the selector's description, on the filtered names. *)
Definition preferred (names : list string) : string :=
  match filter (contains "gemini-2.5-flash") names with
  | x :: _ => x
  | [] =>
      match filter (contains "flash") names with
      | x :: _ => x
      | [] =>
          match filter (contains "pro") names with
          | x :: _ => x
          | [] =>
              match names with
              | x :: _ => x
              | [] => PREFERRED_MODEL
              end
          end
      end
  end.

End Descriptor.
Export Descriptor.

(** ** Conditions on a run *)

Module Run.

(** The descriptor's [name] is not a JSON array or object. *)
Definition plain_name (field : option pyval) : bool :=
  match field with
  | Some (PyList _) | Some (PyDict _) => false
  | _ => true
  end.

Definition plainly_named (m : pyval) : bool :=
  match m with
  | PyDict d => plain_name (lookup "name" d)
  | _ => true
  end.

Definition plainly_named_models (models : pyval) : bool :=
  match models with
  | PyList ms => forallb plainly_named ms
  | _ => true
  end.

(** Whatever the model-list request gave, no listed model carries an array
    or an object as its name. *)
Definition fetched_names_are_plain (n : net) (api_key : string) : bool :=
  match snd (fetch_models n api_key) with
  | Val models => plainly_named_models models
  | _ => true
  end.

(** Both credentials are set and not empty. *)
Definition credentials (env : environ) (key token : string) : Prop :=
  env "GEMINI_API_KEY" = Some key /\ key <> ""
  /\ env "GITHUB_TOKEN" = Some token /\ token <> "".

(** Either credential is unset or empty. *)
Definition credentials_missing (env : environ) : Prop :=
  env "GEMINI_API_KEY" = None \/ env "GEMINI_API_KEY" = Some ""
  \/ env "GITHUB_TOKEN" = None \/ env "GITHUB_TOKEN" = Some "".

(** What the remote side answers to the request of line 76. *)
Definition generation_answer (env : environ) (n : net) (key : string)
    (model_name : pyval) : result response :=
  http_post n (generate_url model_name key) generate_headers
    (generate_payload (environ_get_or_empty env "ISSUE_TITLE")
                      (environ_get_or_empty env "ISSUE_BODY")).

(** What the remote side answers to the request of line 96. *)
Definition comment_answer (env : environ) (n : net) (token : string)
    (ai_checklist : pyval) : result response :=
  http_post n
    (comment_url (environ_get_or_empty env "REPO_FULL_NAME")
                 (environ_get_or_empty env "ISSUE_NUMBER"))
    (gh_headers token) (comment_data ai_checklist).

End Run.
Export Run.

(** ** Concrete remote sides and inputs *)

Module Sample.

Definition desc (name : string) (methods : list string) : pyval :=
  PyDict [("name", PyStr name);
          ("supportedGenerationMethods", PyList (map PyStr methods))].

(** A "pro" model listed before a "flash" one, and a model that cannot
    generate. *)
Definition flash_after_pro : list pyval :=
  [desc "models/gemini-1.0-pro" ["generateContent"];
   desc "models/embedding-001" ["embedContent"];
   desc "models/gemini-1.5-flash" ["generateContent"]].

(** Generation-capable models whose names carry none of the keywords. *)
Definition no_keyword : list pyval :=
  [desc "models/aqa" ["generateAnswer"];
   desc "models/gemma-3-4b" ["generateContent"];
   desc "models/gemma-3-12b" ["generateContent"]].

(** A listed model whose [name] is a JSON array. *)
Definition list_named : list pyval :=
  [PyDict [("name", PyList [PyStr "flash"]);
           ("supportedGenerationMethods", PyList [PyStr "generateContent"])]].

(** Models listed without methods: the field absent, and null. *)
Definition without_methods : list (string * pyval) :=
  [("name", PyStr "models/gemini-2.5-flash-preview")].

Definition null_methods : list (string * pyval) :=
  [("name", PyStr "models/gemini-2.5-flash-preview");
   ("supportedGenerationMethods", PyNone)].

Definition ok_response (body : pyval) : response :=
  mkResponse 200 "OK" "" "" (Ok body).

Definition refused : exn := mkExn RequestException "connection refused".

(** Answers the model-list request with [{"models": models}] and refuses
    every POST. *)
Definition serving (models : pyval) : net :=
  mkNet (fun _ => Ok (ok_response (PyDict [("models", models)])))
        (fun _ _ _ => Raise refused).

(** The model-list request itself fails. *)
Definition unreachable : net :=
  mkNet (fun _ => Raise refused) (fun _ _ _ => Raise refused).

(** The model-list request is answered with the given response. *)
Definition answering (r : response) : net :=
  mkNet (fun _ => Ok r) (fun _ _ _ => Raise refused).

Definition is_github (url : fstring) : bool :=
  match url with
  | Lit s :: _ => String.prefix "https://api.github.com/" s
  | _ => false
  end.

(** A whole run: the model list, the generation answer and the answer to
    the comment. *)
Definition world (models : pyval) (generation comment : result response) : net :=
  mkNet (fun _ => Ok (ok_response (PyDict [("models", models)])))
        (fun url _ _ => if is_github url then comment else generation).

Definition generated (checklist : string) : pyval :=
  PyDict [("candidates",
           PyList [PyDict [("content",
                            PyDict [("parts",
                                     PyList [PyDict [("text", PyStr checklist)]])])]])].

(** Answers of the generation service and of the issue tracker. *)
Definition generation_ok : result response :=
  Ok (ok_response (generated "- [ ] reproduce")).
Definition generation_overloaded : result response :=
  Ok (mkResponse 503 "Service Unavailable" "" "overloaded" (Ok PyNone)).
Definition generation_not_json : result response :=
  Ok (mkResponse 200 "OK" "" "<html>"
        (Raise (mkExn JSONDecodeError "Expecting value"))).
Definition generation_blocked : result response :=
  Ok (ok_response (PyDict [("candidates", PyList [])])).
Definition comment_created : result response :=
  Ok (mkResponse 201 "Created" "" "" (Ok PyNone)).
Definition comment_forbidden : result response :=
  Ok (mkResponse 403 "Forbidden" "" "" (Ok PyNone)).

Definition env_full : environ :=
  fun name =>
    if String.eqb name "GEMINI_API_KEY" then Some "key"
    else if String.eqb name "GITHUB_TOKEN" then Some "token"
    else if String.eqb name "REPO_FULL_NAME" then Some "owner/repo"
    else if String.eqb name "ISSUE_NUMBER" then Some "7"
    else None.

Definition env_no_token : environ :=
  fun name => if String.eqb name "GEMINI_API_KEY" then Some "key" else None.

End Sample.
Export Sample.

(** ** The events of a run of [main] *)

Module Requests.

Definition http_events (t : list event) : list event := filter is_http t.

(** The request of line 15. *)
Definition list_request (key : string) : event := EvGet (list_url key).

(** The line printed at line 75. *)
Definition sending_line (model_name : pyval) : event :=
  EvPrint [Lit "Sending request to Gemini with model: "; Fmt model_name;
           Lit " ..."].

(** The request of line 76. *)
Definition generation_request (env : environ) (key : string)
    (model_name : pyval) : event :=
  EvPost (generate_url model_name key) generate_headers
    (generate_payload (environ_get_or_empty env "ISSUE_TITLE")
                      (environ_get_or_empty env "ISSUE_BODY")).

(** The request of line 96. *)
Definition comment_request (env : environ) (token : string)
    (ai_checklist : pyval) : event :=
  EvPost (comment_url (environ_get_or_empty env "REPO_FULL_NAME")
                      (environ_get_or_empty env "ISSUE_NUMBER"))
    (gh_headers token) (comment_data ai_checklist).

(** The value found at [result["candidates"][0]["content"]["parts"][0]["text"]]
    when [result] has the shape the script expects: objects at the keyed
    steps, non-empty arrays at the indexed ones. *)
Definition text_field (result : pyval) : option pyval :=
  match result with
  | PyDict d =>
      match lookup "candidates" d with
      | Some (PyList (PyDict c0 :: _)) =>
          match lookup "content" c0 with
          | Some (PyDict content) =>
              match lookup "parts" content with
              | Some (PyList (PyDict p0 :: _)) => lookup "text" p0
              | _ => None
              end
          | _ => None
          end
      | _ => None
      end
  | _ => None
  end.

(** A model list with a null entry among well-formed descriptors. *)
Definition with_null_entry : list pyval :=
  [desc "models/gemini-2.5-flash" ["generateContent"]; PyNone].

(** Methods with a number after the entry that matches. *)
Definition methods_then_number : list (string * pyval) :=
  [("name", PyStr "models/gemini-2.5-flash");
   ("supportedGenerationMethods",
    PyList ([PyStr "countTokens"] ++ PyStr "generateContent" :: [PyInt 3]))].

End Requests.
Export Requests.

(** ** Interrupted runs of [discover_model]

    [KeyboardInterrupt] derives from [BaseException] and not from
    [Exception].  It is raised in the main thread when the user interrupts
    the process, which in this script means while a request is in flight.
    Here the model-list request may be interrupted, and the handler of line
    36 is put to the class test on whatever was raised. *)

Module Signals.

(** What a [try] block can raise: an exception of a class of [exn_class], or
    [KeyboardInterrupt]. *)
Inductive raised : Type :=
| Derived (e : exn)
| KeyboardInterrupt.

(** [isinstance(exc, Exception)] *)
Definition derives_from_Exception (exc : raised) : bool :=
  match exc with
  | Derived e => is_Exception (exn_cls e)
  | KeyboardInterrupt => false
  end.

(** [str(exc)] *)
Definition raised_str (exc : raised) : string :=
  match exc with
  | Derived e => exn_msg e
  | KeyboardInterrupt => ""
  end.

(** How a piece of the script ends when it may be interrupted. *)
Inductive outcome (A : Type) : Type :=
| Returns (a : A)
| Raises (exc : raised)
| Exits (code : Z).
Arguments Returns {A} a.
Arguments Raises {A} exc.
Arguments Exits {A} code.

(** A run that was not interrupted, among those that may be. *)
Definition widen {A} (m : M A) : list event * outcome A :=
  match m with
  | (t, Val a) => (t, Returns a)
  | (t, Exc e) => (t, Raises (Derived e))
  | (t, Exit c) => (t, Exits c)
  end.

(** The remote side and the user: [sigint url] tells whether the interrupt
    arrives while the GET of [url] is in flight. *)
Record session : Type := mkSession {
  remote : net;
  sigint : fstring -> bool
}.

Definition calm (n : net) : session := mkSession n (fun _ => false).

(** [try: body / except <classes> as exc: handler exc] *)
Definition try_except_raised {A} (body : list event * outcome A)
    (catches : raised -> bool)
    (handler : raised -> list event * outcome A) : list event * outcome A :=
  match body with
  | (t, Raises exc) =>
      if catches exc
      then let (t', r) := handler exc in (t ++ t', r)
      else (t, Raises exc)
  | other => other
  end.

(** The [try] block, lines 15-35.  The request of line 15 is its first
    statement: an interrupt during it ends the block there, and without
    one the block runs as [discover_model_try]. *)
Definition discover_model_try_in (s : session) (api_key : string)
  : list event * outcome pyval :=
  if sigint s (list_url api_key)
  then ([EvGet (list_url api_key)], Raises KeyboardInterrupt)
  else widen (discover_model_try (remote s) api_key).

(** The line printed by the handler at line 37. *)
Definition warning_of (exc : raised) : fstring :=
  [Lit "Warning: model discovery failed, defaulting to ";
   Lit PREFERRED_MODEL; Lit ". Error: "; Lit (raised_str exc)].

(** Lines 12-38. *)
Definition discover_model_in (s : session) (api_key : string)
  : list event * outcome pyval :=
  try_except_raised (discover_model_try_in s api_key) derives_from_Exception
    (fun exc => widen (_ <- print (warning_of exc) ;;
                       ret (PyStr PREFERRED_MODEL))%io).

(** The user interrupts the model-list request of a working service. *)
Definition interrupted_session : session :=
  mkSession (serving (PyList flash_after_pro)) (fun _ => true).

End Signals.
Export Signals.

(** ** Substring search *)

Section Substrings.

Lemma prefix_app (a b : string) :
  String.prefix a b = true <-> exists post, b = (a ++ post)%string.
Proof.
  revert b. induction a as [|c a IH]; intros b.
  - split; [intros _; exists b; reflexivity | intros _; destruct b; reflexivity].
  - destruct b as [|c' b]; simpl.
    + split; [discriminate | intros [post H]; discriminate].
    + destruct (ascii_dec c c') as [->|Hne].
      * rewrite IH. split; intros [post H]; exists post.
        -- now rewrite H.
        -- now inversion H.
      * split; [discriminate | intros [post H]; inversion H; congruence].
Qed.

Lemma append_assoc (a b c : string) :
  ((a ++ b) ++ c = a ++ (b ++ c))%string.
Proof. induction a as [|x a IH]; simpl; [reflexivity | now rewrite IH]. Qed.

(** [contains] is Python's [in] on strings: an occurrence somewhere. *)
Lemma contains_spec (needle hay : string) :
  contains needle hay = true <-> substring_of needle hay.
Proof.
  unfold substring_of. induction hay as [|c hay IH].
  - cbn [contains]. rewrite orb_false_r, prefix_app. split.
    + intros [post H]. exists EmptyString, post. exact H.
    + intros [pre [post H]]. destruct pre; simpl in H.
      * exists post. exact H.
      * discriminate.
  - cbn [contains]. rewrite orb_true_iff, IH, prefix_app. split.
    + intros [[post H] | [pre [post H]]].
      * exists EmptyString, post. exact H.
      * exists (String c pre), post. simpl. now rewrite H.
    + intros [pre [post H]]. destruct pre as [|c' pre]; simpl in H.
      * left. exists post. exact H.
      * right. inversion H. exists pre, post. reflexivity.
Qed.

Lemma contains_flash_25 (s : string) :
  contains "gemini-2.5-flash" s = true -> contains "flash" s = true.
Proof.
  rewrite !contains_spec. intros [pre [post H]].
  exists (pre ++ "gemini-2.5-")%string, post. rewrite H.
  rewrite append_assoc. reflexivity.
Qed.

End Substrings.

(** ** The selector on well-formed descriptors *)

Section Selector.

Lemma any_in_strings (needle : string) (l : list pyval) :
  forallb is_str l = true ->
  any_in needle l = Ok (existsb (contains needle) (strings_of l)).
Proof.
  induction l as [|v l IH]; intros Hl; [reflexivity|].
  cbn [forallb] in Hl. apply andb_true_iff in Hl as [Hv Hl].
  destruct v; try discriminate. cbn [any_in py_in rbind strings_of existsb].
  destruct (contains needle s); [reflexivity | exact (IH Hl)].
Qed.

Lemma supports_generate_wf (m : pyval) :
  wf_descriptor m = true -> supports_generate m = Ok (supports m).
Proof.
  destruct m; try discriminate. intros Hwf.
  apply andb_true_iff in Hwf as [_ Hm].
  unfold supports_generate, supports, methods_of, py_get.
  cbn [rbind].
  destruct (lookup "supportedGenerationMethods" entries) as [v|];
    [|reflexivity].
  destruct v; try discriminate; [reflexivity|].
  cbn [wf_methods] in Hm.
  destruct items as [|x items]; [reflexivity|].
  unfold py_or. cbn [truthy py_iter rbind].
  now apply any_in_strings.
Qed.

Lemma name_wf (m : pyval) :
  wf_descriptor m = true ->
  exists v, py_get m "name" PyNone = Ok v
            /\ truthy v = negb (String.eqb (name_of m) "")
            /\ (truthy v = true -> v = PyStr (name_of m)).
Proof.
  destruct m; try discriminate. intros Hwf.
  apply andb_true_iff in Hwf as [Hn _].
  unfold py_get, name_of.
  destruct (lookup "name" entries) as [v|].
  - destruct v; try discriminate; eexists; repeat split; auto; discriminate.
  - eexists; repeat split; auto; discriminate.
Qed.

Lemma candidate_names_wf (ms : list pyval) :
  forallb wf_descriptor ms = true ->
  candidate_names ms = Ok (map PyStr (filtered_names ms)).
Proof.
  unfold filtered_names.
  induction ms as [|m ms IH]; intros Hwf; [reflexivity|].
  cbn [forallb] in Hwf. apply andb_true_iff in Hwf as [Hm Hms].
  cbn [candidate_names filter]. rewrite (IH Hms). clear IH Hms.
  destruct (name_wf m Hm) as [v [-> [Ht Hv]]]. cbn [rbind].
  unfold is_candidate. rewrite <- Ht.
  destruct (truthy v); cbn [andb rbind]; [|reflexivity].
  rewrite (supports_generate_wf m Hm), (Hv eq_refl). cbn [rbind].
  destruct (supports m); reflexivity.
Qed.

Lemma names_containing_strings (needle : string) (names : list string) :
  names_containing needle (map PyStr names)
  = Ok (map PyStr (filter (contains needle) names)).
Proof.
  induction names as [|x names IH]; [reflexivity|].
  cbn [map names_containing py_in rbind filter]. rewrite IH. cbn [rbind].
  destruct (contains needle x); reflexivity.
Qed.

(** On a list of well-formed descriptors the code computes steps 1 to 5. *)
Lemma select_model_wf (ms : list pyval) :
  forallb wf_descriptor ms = true ->
  select_model (PyList ms) = Ok (PyStr (preferred (filtered_names ms))).
Proof.
  intros Hwf. unfold select_model, preferred. cbn [py_iter rbind].
  rewrite (candidate_names_wf ms Hwf). cbn [rbind].
  rewrite !names_containing_strings. cbn [rbind].
  destruct (filter (contains "gemini-2.5-flash") (filtered_names ms));
    [|reflexivity].
  destruct (filter (contains "flash") (filtered_names ms)); [|reflexivity].
  destruct (filter (contains "pro") (filtered_names ms)); [|reflexivity].
  destruct (filtered_names ms); reflexivity.
Qed.

Lemma filter_first (p : string -> bool) (names : list string) x rest :
  filter p names = x :: rest -> first_with p x names.
Proof.
  unfold first_with. induction names as [|y names IH]; [discriminate|].
  cbn [filter]. destruct (p y) eqn:Hy.
  - intros H. inversion H; subst. exists [], names. repeat split; auto.
    intros ? [].
  - intros H. destruct (IH H) as [before [after [-> [Hx Hb]]]].
    exists (y :: before), after. repeat split; auto.
    intros z [<-|Hz]; auto.
Qed.

Lemma filter_none (p : string -> bool) (names : list string) :
  none_with p names -> filter p names = [].
Proof.
  unfold none_with. induction names as [|y names IH]; [reflexivity|].
  intros H. cbn [filter]. rewrite (H y (or_introl eq_refl)).
  apply IH. intros x Hx. apply H. now right.
Qed.

Lemma filter_some (p : string -> bool) (names : list string) :
  some_with p names -> exists x rest, filter p names = x :: rest.
Proof.
  intros [x [Hin Hp]].
  destruct (filter p names) as [|y rest] eqn:Hf; [|eauto].
  assert (In x (filter p names)) as H by (apply filter_In; auto).
  rewrite Hf in H. destruct H.
Qed.

End Selector.

(** ** [discover_model] in terms of what the fetch gave *)

Section Discovery.

Variable n : net.
Variable api_key : string.

Lemma is_Exception_all (c : exn_class) : is_Exception c = true.
Proof. destruct c; reflexivity. Qed.

Lemma fetch_models_eta :
  fetch_models n api_key
  = ([EvGet (list_url api_key)], snd (fetch_models n api_key)).
Proof.
  unfold fetch_models, requests_get. cbn [bind].
  destruct (http_get n (list_url api_key)) as [resp|e]; cbn; [|reflexivity].
  destruct (raise_for_status resp); cbn; [|reflexivity].
  destruct (json resp) as [body|e]; cbn; [|reflexivity].
  destruct (py_get body "models" (PyList [])); reflexivity.
Qed.

Lemma fetch_models_no_exit (c : Z) : snd (fetch_models n api_key) <> Exit c.
Proof.
  unfold fetch_models, requests_get. cbn [bind].
  destruct (http_get n (list_url api_key)) as [resp|e]; cbn; [|discriminate].
  destruct (raise_for_status resp); cbn; [|discriminate].
  destruct (json resp) as [body|e]; cbn; [|discriminate].
  destruct (py_get body "models" (PyList [])); discriminate.
Qed.

Lemma discover_model_fetched (models : pyval) :
  snd (fetch_models n api_key) = Val models ->
  discover_model n api_key
  = match select_model models with
    | Ok v => ([EvGet (list_url api_key)], Val v)
    | Raise e => ([EvGet (list_url api_key); EvPrint (warning e)],
                  Val (PyStr PREFERRED_MODEL))
    end.
Proof.
  intros H. unfold discover_model, discover_model_try.
  rewrite fetch_models_eta, H. cbn [bind].
  destruct (select_model models) as [v|e]; cbn; [reflexivity|].
  now rewrite is_Exception_all.
Qed.

Lemma discover_model_fetch_failed (e : exn) :
  snd (fetch_models n api_key) = Exc e ->
  discover_model n api_key
  = ([EvGet (list_url api_key); EvPrint (warning e)],
     Val (PyStr PREFERRED_MODEL)).
Proof.
  intros H. unfold discover_model, discover_model_try.
  rewrite fetch_models_eta, H. cbn. now rewrite is_Exception_all.
Qed.

(** The [try] block ends with a value or an exception, never with an exit,
    and its trace is the one request. *)
Lemma discover_model_try_eta :
  discover_model_try n api_key
  = ([EvGet (list_url api_key)], snd (discover_model_try n api_key)).
Proof.
  unfold discover_model_try. rewrite fetch_models_eta.
  destruct (snd (fetch_models n api_key)) as [models|e|c]; cbn; try reflexivity.
  destruct (select_model models); reflexivity.
Qed.

End Discovery.

(** ** Soundness of the selection on arbitrary decoded values *)

Section Soundness.

Lemma names_containing_incl (needle : string) (names l : list pyval) :
  names_containing needle names = Ok l -> incl l names.
Proof.
  revert l. induction names as [|x names IH]; intros l.
  - intros H. inversion H. apply incl_refl.
  - cbn [names_containing].
    destruct (py_in needle x) as [hit|e]; cbn [rbind]; [|discriminate].
    destruct (names_containing needle names) as [tl|e]; cbn [rbind];
      [|discriminate].
    intros H. inversion H. destruct hit.
    + apply incl_cons; [now left | apply incl_tl, IH; reflexivity].
    + apply incl_tl, IH. reflexivity.
Qed.

Lemma names_containing_defined (needle : string) (names l : list pyval) :
  names_containing needle names = Ok l ->
  forall v, In v names -> exists hit, py_in needle v = Ok hit.
Proof.
  revert l. induction names as [|x names IH]; intros l H v Hv; [destruct Hv|].
  cbn [names_containing] in H.
  destruct (py_in needle x) as [hit|e] eqn:Hx; cbn [rbind] in H;
    [|discriminate].
  destruct (names_containing needle names) as [tl|e]; cbn [rbind] in H;
    [|discriminate].
  destruct Hv as [<-|Hv]; [eauto | exact (IH tl eq_refl v Hv)].
Qed.

(** Every name the comprehension of line 23 keeps is the truthy [name] of a
    listed descriptor for which [supports_generate] said yes. *)
Lemma candidate_names_sound (ms names : list pyval) :
  candidate_names ms = Ok names ->
  forall v, In v names ->
    exists m, In m ms
              /\ py_get m "name" PyNone = Ok v
              /\ truthy v = true
              /\ supports_generate m = Ok true.
Proof.
  revert names. induction ms as [|m ms IH]; intros names.
  - intros H. inversion H. intros v [].
  - cbn [candidate_names].
    destruct (py_get m "name" PyNone) as [name|e] eqn:Hn; cbn [rbind];
      [|discriminate].
    destruct (truthy name) eqn:Ht.
    + destruct (supports_generate m) as [keep|e] eqn:Hs; cbn [rbind];
        [|discriminate].
      destruct (candidate_names ms) as [tl|e]; cbn [rbind]; [|discriminate].
      intros H v Hv. inversion H; subst names. destruct keep.
      * destruct Hv as [<-|Hv].
        -- exists m. repeat split; auto. now left.
        -- destruct (IH tl eq_refl v Hv) as [m' [Hin Hm']].
           exists m'. split; [now right | exact Hm'].
      * destruct (IH tl eq_refl v Hv) as [m' [Hin Hm']].
        exists m'. split; [now right | exact Hm'].
    + cbn [rbind].
      destruct (candidate_names ms) as [tl|e]; cbn [rbind]; [|discriminate].
      intros H v Hv. inversion H; subst names.
      destruct (IH tl eq_refl v Hv) as [m' [Hin Hm']].
      exists m'. split; [now right | exact Hm'].
Qed.

(** What [select_model] returns is the fallback or one of the kept names,
    all of which went through the keyword test of line 25. *)
Lemma select_model_sound (models v : pyval) :
  select_model models = Ok v ->
  v = PyStr PREFERRED_MODEL
  \/ exists ms names, py_iter models = Ok ms
                      /\ candidate_names ms = Ok names /\ In v names
                      /\ exists hit, py_in "gemini-2.5-flash" v = Ok hit.
Proof.
  unfold select_model.
  destruct (py_iter models) as [ms|e] eqn:Hi; cbn [rbind]; [|discriminate].
  destruct (candidate_names ms) as [names|e] eqn:Hc; cbn [rbind];
    [|discriminate].
  destruct (names_containing "gemini-2.5-flash" names) as [f25|e] eqn:H25;
    cbn [rbind]; [|discriminate].
  destruct (names_containing "flash" names) as [fa|e] eqn:Hfa;
    cbn [rbind]; [|discriminate].
  destruct (names_containing "pro" names) as [pa|e] eqn:Hpa;
    cbn [rbind]; [|discriminate].
  pose proof (names_containing_defined _ _ _ H25) as Hdef.
  apply names_containing_incl in H25, Hfa, Hpa.
  intros H.
  assert (Hin : v = PyStr PREFERRED_MODEL \/ In v names).
  { destruct f25 as [|x ?];
      [destruct fa as [|x ?];
       [destruct pa as [|x ?]; [destruct names as [|x ?]|]|]|];
      inversion H; subst; auto; right;
      first [ now apply H25; left | now apply Hfa; left | now apply Hpa; left
            | now left ]. }
  destruct Hin as [Hv|Hv]; [now left|].
  right. exists ms, names. auto.
Qed.

(** Iterating anything but a list yields strings, which have no [get]: the
    comprehension then keeps nothing or raises. *)
Lemma candidate_names_of_strings (ms names : list pyval) :
  forallb is_str ms = true -> candidate_names ms = Ok names -> names = [].
Proof.
  destruct ms as [|m ms]; intros Hs H.
  - now inversion H.
  - cbn [forallb] in Hs. apply andb_true_iff in Hs as [Hm _].
    destruct m; discriminate.
Qed.

Lemma py_iter_not_list (models : pyval) (ms : list pyval) :
  py_iter models = Ok ms ->
  models = PyList ms \/ forallb is_str ms = true.
Proof.
  destruct models; try discriminate; intros H; inversion H; auto; right.
  - clear H H1. induction s; auto.
  - clear H H1. induction entries; auto.
Qed.

End Soundness.

(** ** Properties of [discover_model] *)

(** C1: when the model list was fetched and holds well-formed descriptors,
    the names kept by the filter are those of the named, generation-capable
    descriptors, and the function returns the first name, in list order,
    containing "gemini-2.5-flash"; failing that, the first containing
    "flash"; failing that, the first containing "pro".  In particular a list
    without a 2.5-flash name but with a "flash" name yields the first
    "flash" name, whatever "pro" names precede it. *)
Theorem discover_model_priority (n : net) (api_key : string) (ms : list pyval) :
  snd (fetch_models n api_key) = Val (PyList ms) ->
  forallb wf_descriptor ms = true ->
  let names := filtered_names ms in
  exists v,
    discover_model n api_key = ([EvGet (list_url api_key)], Val (PyStr v))
    /\ candidate_names ms = Ok (map PyStr names)
    /\ (some_with (contains "gemini-2.5-flash") names ->
        first_with (contains "gemini-2.5-flash") v names)
    /\ (none_with (contains "gemini-2.5-flash") names ->
        some_with (contains "flash") names ->
        first_with (contains "flash") v names)
    /\ (none_with (contains "gemini-2.5-flash") names ->
        none_with (contains "flash") names ->
        some_with (contains "pro") names ->
        first_with (contains "pro") v names).
Proof.
  intros Hf Hwf names. exists (preferred names).
  rewrite (discover_model_fetched n api_key _ Hf), (select_model_wf ms Hwf).
  split; [reflexivity|]. split; [now apply candidate_names_wf|].
  unfold preferred. repeat split.
  - intros H. destruct (filter_some _ _ H) as [x [rest Hx]]. rewrite Hx.
    now apply filter_first in Hx.
  - intros H0 H. rewrite (filter_none _ _ H0).
    destruct (filter_some _ _ H) as [x [rest Hx]]. rewrite Hx.
    now apply filter_first in Hx.
  - intros H0 H1 H. rewrite (filter_none _ _ H0), (filter_none _ _ H1).
    destruct (filter_some _ _ H) as [x [rest Hx]]. rewrite Hx.
    now apply filter_first in Hx.
Qed.

Lemma discover_model_priority_witness :
  snd (fetch_models (serving (PyList flash_after_pro)) "key")
  = Val (PyList flash_after_pro)
  /\ forallb wf_descriptor flash_after_pro = true
  /\ exists v,
       discover_model (serving (PyList flash_after_pro)) "key"
       = ([EvGet (list_url "key")], Val (PyStr v))
       /\ (some_with (contains "flash") (filtered_names flash_after_pro) ->
           first_with (contains "flash") v (filtered_names flash_after_pro)).
Proof.
  split; [reflexivity|]. split; [reflexivity|].
  destruct (discover_model_priority (serving (PyList flash_after_pro)) "key"
              flash_after_pro eq_refl eq_refl)
    as [v [Hrun [_ [_ [Hflash _]]]]].
  exists v. split; [exact Hrun|].
  apply Hflash. intros x Hx. vm_compute in Hx.
  destruct Hx as [<-|[<-|[]]]; reflexivity.
Defined.

(** The scenario of the description: a "pro" model listed before a
    2.5-flash one. *)
Example discover_model_scenario :
  discover_model
    (serving (PyList [desc "models/gemini-1.0-pro" ["generateContent"];
                      desc "models/gemini-2.5-flash-001" ["generateContent"]]))
    "key"
  = ([EvGet (list_url "key")], Val (PyStr "models/gemini-2.5-flash-001")).
Proof. reflexivity. Qed.

(** C6: when the model list was fetched, holds well-formed descriptors, some
    name passes the filter and no filtered name contains "gemini-2.5-flash",
    "flash" or "pro", the function returns the first filtered name. *)
Theorem discover_model_no_keyword (n : net) (api_key : string)
    (ms : list pyval) (first : string) (others : list string) :
  snd (fetch_models n api_key) = Val (PyList ms) ->
  forallb wf_descriptor ms = true ->
  filtered_names ms = first :: others ->
  none_with (contains "gemini-2.5-flash") (filtered_names ms) ->
  none_with (contains "flash") (filtered_names ms) ->
  none_with (contains "pro") (filtered_names ms) ->
  discover_model n api_key = ([EvGet (list_url api_key)], Val (PyStr first)).
Proof.
  intros Hf Hwf Hnames H25 Hfl Hpro.
  rewrite (discover_model_fetched n api_key _ Hf), (select_model_wf ms Hwf).
  unfold preferred.
  rewrite (filter_none _ _ H25), (filter_none _ _ Hfl), (filter_none _ _ Hpro).
  now rewrite Hnames.
Qed.

Lemma discover_model_no_keyword_witness :
  discover_model (serving (PyList no_keyword)) "key"
  = ([EvGet (list_url "key")], Val (PyStr "models/gemma-3-4b")).
Proof.
  apply (discover_model_no_keyword (serving (PyList no_keyword)) "key"
           no_keyword "models/gemma-3-4b" ["models/gemma-3-12b"]);
    try reflexivity;
    intros x Hx; vm_compute in Hx; destruct Hx as [<-|[<-|[]]]; reflexivity.
Defined.

(** C2, as stated, fails: for the empty descriptor list the function returns
    the fallback but prints nothing. *)
Lemma empty_list_prints_nothing :
  snd (fetch_models (serving (PyList [])) "key") = Val (PyList [])
  /\ candidate_names [] = Ok []
  /\ snd (discover_model (serving (PyList [])) "key")
     = Val (PyStr "models/gemini-2.5-flash")
  /\ ~ exists line,
         In (EvPrint line) (fst (discover_model (serving (PyList [])) "key")).
Proof.
  repeat split; try reflexivity.
  intros [line H]. vm_compute in H. destruct H as [H|[]]. discriminate.
Qed.

(** C2, amended: when the fetch fails (the request raises, the status is 4xx
    or 5xx, or the body is not JSON) the function returns the fallback after
    printing a warning that names the fallback and the error; when the
    fetch succeeds and the filter keeps no name (the empty list included)
    it returns the fallback and prints nothing. *)
Theorem discover_model_fallback (n : net) (api_key : string) :
  let url := list_url api_key in
  let warned (e : exn) :=
    discover_model n api_key
    = ([EvGet url;
        EvPrint [Lit "Warning: model discovery failed, defaulting to ";
                 Lit "models/gemini-2.5-flash"; Lit ". Error: ";
                 Lit (exn_msg e)]],
       Val (PyStr "models/gemini-2.5-flash")) in
  (forall e, http_get n url = Raise e -> warned e)
  /\ (forall r, http_get n url = Ok r ->
                400 <= status_code r < 600 ->
                exists e, exn_cls e = HTTPError /\ warned e)
  /\ (forall r e, http_get n url = Ok r ->
                  raise_for_status r = Ok tt ->
                  json r = Raise e -> warned e)
  /\ (forall e, snd (fetch_models n api_key) = Exc e -> warned e)
  /\ (forall ms, snd (fetch_models n api_key) = Val (PyList ms) ->
                 candidate_names ms = Ok [] ->
                 discover_model n api_key
                 = ([EvGet url], Val (PyStr "models/gemini-2.5-flash"))).
Proof.
  intros url warned. subst warned url. cbv beta.
  assert (Hfail : forall e, snd (fetch_models n api_key) = Exc e ->
                            discover_model n api_key
                            = ([EvGet (list_url api_key);
                                EvPrint (warning e)],
                               Val (PyStr PREFERRED_MODEL)))
    by apply discover_model_fetch_failed.
  repeat split.
  - intros e H. apply Hfail. unfold fetch_models, requests_get.
    cbn [bind]. now rewrite H.
  - intros r H Hs.
    assert (exists e, raise_for_status r = Raise e /\ exn_cls e = HTTPError)
      as [e [He Hc]].
    { unfold raise_for_status.
      destruct ((400 <=? status_code r) && (status_code r <? 500)) eqn:H4;
        [eauto|].
      destruct ((500 <=? status_code r) && (status_code r <? 600)) eqn:H5;
        [eauto|].
      apply andb_false_iff in H4, H5. lia. }
    exists e. split; [exact Hc|]. apply Hfail.
    unfold fetch_models, requests_get. cbn [bind]. rewrite H. cbn.
    now rewrite He.
  - intros r e H Hs Hj. apply Hfail.
    unfold fetch_models, requests_get. cbn [bind]. rewrite H. cbn.
    now rewrite Hs, Hj.
  - exact Hfail.
  - intros ms Hf Hc. rewrite (discover_model_fetched n api_key _ Hf).
    unfold select_model. cbn [py_iter rbind]. now rewrite Hc.
Qed.

Lemma discover_model_fallback_witness :
  discover_model unreachable "key"
  = ([EvGet (list_url "key"); EvPrint (warning refused)],
     Val (PyStr PREFERRED_MODEL))
  /\ (exists e,
        exn_cls e = HTTPError
        /\ discover_model (answering (mkResponse 503 "Service Unavailable"
                                        "" "" (Ok PyNone))) "key"
           = ([EvGet (list_url "key"); EvPrint (warning e)],
              Val (PyStr PREFERRED_MODEL)))
  /\ discover_model
       (answering (mkResponse 200 "OK" "" "<html>"
                     (Raise (mkExn JSONDecodeError "Expecting value")))) "key"
     = ([EvGet (list_url "key");
         EvPrint (warning (mkExn JSONDecodeError "Expecting value"))],
        Val (PyStr PREFERRED_MODEL))
  /\ discover_model (answering (ok_response (PyList []))) "key"
     = ([EvGet (list_url "key");
         EvPrint (warning (mkExn AttributeError
                             "'list' object has no attribute 'get'"))],
        Val (PyStr PREFERRED_MODEL))
  /\ discover_model (serving (PyList [desc "models/embedding-001"
                                        ["embedContent"]])) "key"
     = ([EvGet (list_url "key")], Val (PyStr PREFERRED_MODEL)).
Proof.
  split; [|split; [|split; [|split]]].
  - exact (proj1 (discover_model_fallback unreachable "key") refused eq_refl).
  - apply (proj1 (proj2 (discover_model_fallback
                           (answering (mkResponse 503 "Service Unavailable"
                                         "" "" (Ok PyNone))) "key"))
             _ eq_refl).
    cbn. lia.
  - exact (proj1 (proj2 (proj2 (discover_model_fallback
             (answering (mkResponse 200 "OK" "" "<html>"
                           (Raise (mkExn JSONDecodeError "Expecting value"))))
             "key"))) _ _ eq_refl eq_refl eq_refl).
  - exact (proj1 (proj2 (proj2 (proj2 (discover_model_fallback
             (answering (ok_response (PyList []))) "key")))) _ eq_refl).
  - exact (proj2 (proj2 (proj2 (proj2 (discover_model_fallback
             (serving (PyList [desc "models/embedding-001" ["embedContent"]]))
             "key")))) _ eq_refl eq_refl).
Defined.

(** An uninterrupted session runs as the remote side alone does. *)
Lemma discover_model_in_calm (n : net) (api_key : string) :
  discover_model_in (calm n) api_key = widen (discover_model n api_key).
Proof.
  unfold discover_model_in, discover_model_try_in, discover_model, calm.
  cbn [sigint remote].
  rewrite discover_model_try_eta.
  destruct (snd (discover_model_try n api_key)) as [v|e|c]; cbn;
    try reflexivity.
  now rewrite is_Exception_all.
Qed.

(** C3, as stated, fails: when the user interrupts the model-list request,
    [KeyboardInterrupt] is raised inside the [try] block, the handler of
    line 36 does not match it, and it leaves [discover_model]: no value is
    returned and nothing is printed. *)
Lemma keyboard_interrupt_propagates :
  discover_model_in interrupted_session "key"
  = ([EvGet (list_url "key")], Raises KeyboardInterrupt)
  /\ ~ exists v,
         snd (discover_model_in interrupted_session "key") = Returns v.
Proof.
  split; [reflexivity|]. intros [v H]. vm_compute in H. discriminate H.
Qed.

(** C3, amended: every exception deriving from [Exception] that the [try]
    block raises, at the request, the status check, the decoding or
    anywhere in the selection, is caught at line 36 and does not propagate:
    the warning is printed and the fallback returned.  A
    [KeyboardInterrupt] raised in the block is not caught and propagates. *)
Theorem discover_model_catches_Exception (s : session) (api_key : string) :
  (forall e, snd (discover_model_try_in s api_key) = Raises (Derived e) ->
             discover_model_in s api_key
             = ([EvGet (list_url api_key); EvPrint (warning e)],
                Returns (PyStr "models/gemini-2.5-flash")))
  /\ (snd (discover_model_try_in s api_key) = Raises KeyboardInterrupt ->
      discover_model_in s api_key
      = ([EvGet (list_url api_key)], Raises KeyboardInterrupt)).
Proof.
  unfold discover_model_in, discover_model_try_in.
  destruct (sigint s (list_url api_key)).
  - cbn. split; [discriminate | reflexivity].
  - rewrite discover_model_try_eta.
    destruct (snd (discover_model_try (remote s) api_key)) as [v|e|c];
      cbn; (split; [|discriminate]); try discriminate.
    intros e' He. inversion He; subst e'. now rewrite is_Exception_all.
Qed.

Lemma discover_model_catches_Exception_witness :
  discover_model_in (calm (serving (PyList [PyInt 7]))) "key"
  = ([EvGet (list_url "key");
      EvPrint (warning (mkExn AttributeError
                          "'int' object has no attribute 'get'"))],
     Returns (PyStr "models/gemini-2.5-flash"))
  /\ discover_model_in interrupted_session "key"
     = ([EvGet (list_url "key")], Raises KeyboardInterrupt).
Proof.
  split.
  - exact (proj1 (discover_model_catches_Exception
                    (calm (serving (PyList [PyInt 7]))) "key") _ eq_refl).
  - exact (proj2 (discover_model_catches_Exception
                    interrupted_session "key") eq_refl).
Defined.

(** C4: a well-formed descriptor passes the filter of line 23 exactly when
    its name is a non-empty string and some entry of its
    [supportedGenerationMethods] has "generateContent" as a substring;
    and for a fetched list of well-formed descriptors the returned name is
    either the fallback, the filter having kept nothing, or the name of a
    listed descriptor that has such an entry. *)
Theorem candidate_iff_named_and_generating :
  (forall m, wf_descriptor m = true ->
     (candidate_names [m] = Ok [PyStr (name_of m)]
      \/ candidate_names [m] = Ok [])
     /\ (candidate_names [m] = Ok [PyStr (name_of m)]
         <-> name_of m <> ""
             /\ exists entry, In entry (methods_of m)
                              /\ substring_of "generateContent" entry))
  /\ (forall n api_key ms,
        snd (fetch_models n api_key) = Val (PyList ms) ->
        forallb wf_descriptor ms = true ->
        exists v,
          snd (discover_model n api_key) = Val (PyStr v)
          /\ ((filtered_names ms = [] /\ v = "models/gemini-2.5-flash")
              \/ exists m, In m ms /\ name_of m = v /\ v <> ""
                           /\ exists entry,
                                In entry (methods_of m)
                                /\ substring_of "generateContent" entry)).
Proof.
  assert (Hcand : forall m, is_candidate m = true <->
                    name_of m <> ""
                    /\ exists entry, In entry (methods_of m)
                                     /\ substring_of "generateContent" entry).
  { intros m. unfold is_candidate, supports.
    rewrite andb_true_iff, negb_true_iff, String.eqb_neq, existsb_exists.
    split; intros [Hn [entry [Hin He]]]; (split; [exact Hn|]);
      exists entry; (split; [exact Hin|]); now apply contains_spec. }
  split.
  - intros m Hwf.
    assert (Hc : candidate_names [m]
                 = Ok (if is_candidate m then [PyStr (name_of m)] else [])).
    { rewrite (candidate_names_wf [m]).
      - unfold filtered_names. cbn [filter].
        destruct (is_candidate m); reflexivity.
      - cbn [forallb]. now rewrite Hwf. }
    rewrite Hc, <- Hcand. destruct (is_candidate m).
    + split; [now left|]. split; reflexivity.
    + split; [now right|]. split; discriminate.
  - intros n api_key ms Hf Hwf. exists (preferred (filtered_names ms)).
    rewrite (discover_model_fetched n api_key _ Hf), (select_model_wf ms Hwf).
    split; [reflexivity|].
    assert (Hin : forall v, In v (filtered_names ms) ->
                    exists m, In m ms /\ name_of m = v /\ v <> ""
                              /\ exists entry,
                                   In entry (methods_of m)
                                   /\ substring_of "generateContent" entry).
    { intros v Hv. unfold filtered_names in Hv.
      apply in_map_iff in Hv as [m [Hm Hv]].
      apply filter_In in Hv as [Hv Hc]. apply Hcand in Hc as [Hn He].
      exists m. subst v. auto. }
    assert (Hsub : forall p x rest,
              filter p (filtered_names ms) = x :: rest ->
              In x (filtered_names ms)).
    { intros p x rest H.
      assert (In x (filter p (filtered_names ms))) as Hx
        by (rewrite H; now left).
      now apply filter_In in Hx. }
    unfold preferred.
    destruct (filter (contains "gemini-2.5-flash") (filtered_names ms))
      eqn:H25; [|right; eapply Hin, Hsub, H25].
    destruct (filter (contains "flash") (filtered_names ms))
      eqn:Hfl; [|right; eapply Hin, Hsub, Hfl].
    destruct (filter (contains "pro") (filtered_names ms))
      eqn:Hpro; [|right; eapply Hin, Hsub, Hpro].
    destruct (filtered_names ms) eqn:Hnames; [left; auto|].
    right. apply Hin. now left.
Qed.

Lemma candidate_iff_named_and_generating_witness :
  (candidate_names [desc "models/x" ["countTokens"; "v1.generateContentStream"]]
   = Ok [PyStr "models/x"]
   <-> "models/x" <> ""
       /\ exists entry,
            In entry ["countTokens"; "v1.generateContentStream"]
            /\ substring_of "generateContent" entry)
  /\ exists v,
       snd (discover_model (serving (PyList flash_after_pro)) "key")
       = Val (PyStr v).
Proof.
  split.
  - exact (proj2 (proj1 candidate_iff_named_and_generating
                    (desc "models/x" ["countTokens"; "v1.generateContentStream"])
                    eq_refl)).
  - destruct (proj2 candidate_iff_named_and_generating
                (serving (PyList flash_after_pro)) "key" flash_after_pro
                eq_refl eq_refl) as [v [Hv _]].
    exists v. exact Hv.
Defined.

(** C5, as stated, fails: a listed model whose [name] is a JSON array that
    holds "flash" passes the filter and the keyword test, and the array
    itself is returned. *)
Lemma list_valued_name_is_returned :
  discover_model (serving (PyList list_named)) "key"
  = ([EvGet (list_url "key")], Val (PyList [PyStr "flash"]))
  /\ ~ exists s,
         snd (discover_model (serving (PyList list_named)) "key")
         = Val (PyStr s) /\ s <> "".
Proof.
  split; [reflexivity|]. intros [s [H _]]. vm_compute in H. discriminate.
Qed.

(** C5, amended: whenever no listed model carries a JSON array or object as
    its name (in particular whenever the fetch fails, or the body has no
    list of models), the function returns a non-empty string. *)
Theorem discover_model_returns_nonempty_string (n : net) (api_key : string) :
  fetched_names_are_plain n api_key = true ->
  exists s, snd (discover_model n api_key) = Val (PyStr s) /\ s <> "".
Proof.
  unfold fetched_names_are_plain. intros Hnames.
  assert (Hfb : exists s, Val (PyStr PREFERRED_MODEL) = Val (PyStr s)
                          /\ s <> "")
    by (exists PREFERRED_MODEL; split; [reflexivity | discriminate]).
  destruct (snd (fetch_models n api_key)) as [models|e|c] eqn:Hf.
  - rewrite (discover_model_fetched n api_key _ Hf).
    destruct (select_model models) as [v|e] eqn:Hs; [|exact Hfb].
    cbn [snd].
    destruct (select_model_sound _ _ Hs)
      as [->|[ms [names [Hi [Hc [Hv [hit Hin]]]]]]]; [exact Hfb|].
    destruct (py_iter_not_list _ _ Hi) as [->|Hstr].
    + destruct (candidate_names_sound _ _ Hc v Hv) as [m [Hm [Hg [Ht _]]]].
      cbn [plainly_named_models] in Hnames.
      rewrite forallb_forall in Hnames. specialize (Hnames m Hm).
      destruct m; try discriminate. cbn [plainly_named] in Hnames.
      unfold py_get in Hg.
      destruct (lookup "name" entries) as [x|]; inversion Hg; subst;
        [|discriminate].
      destruct v; try discriminate.
      exists s. split; [reflexivity|].
      cbn [truthy] in Ht. apply negb_true_iff in Ht.
      now apply String.eqb_neq.
    + rewrite (candidate_names_of_strings _ _ Hstr Hc) in Hv. destruct Hv.
  - rewrite (discover_model_fetch_failed n api_key e Hf). exact Hfb.
  - now apply fetch_models_no_exit in Hf.
Qed.

Lemma discover_model_returns_nonempty_string_witness :
  fetched_names_are_plain (serving (PyList flash_after_pro)) "key" = true
  /\ exists s,
       snd (discover_model (serving (PyList flash_after_pro)) "key")
       = Val (PyStr s) /\ s <> "".
Proof.
  split; [reflexivity|].
  exact (discover_model_returns_nonempty_string
           (serving (PyList flash_after_pro)) "key" eq_refl).
Defined.


Lemma rbind_Ok {A} (m : result A) : rbind m Ok = m.
Proof. destruct m; reflexivity. Qed.

(** C10: for a descriptor whose [supportedGenerationMethods] is absent or
    null, [supports_generate] returns [False] and does not raise; the
    descriptor is dropped by the filter, so that the list with it and the
    list without it give the same names and the same outcome of the
    selection, return value or exception alike. *)
Theorem supports_generate_without_methods (d : list (string * pyval)) :
  lookup "supportedGenerationMethods" d = None
  \/ lookup "supportedGenerationMethods" d = Some PyNone ->
  supports_generate (PyDict d) = Ok false
  /\ forall before after : list pyval,
       candidate_names (before ++ PyDict d :: after)
       = candidate_names (before ++ after)
       /\ select_model (PyList (before ++ PyDict d :: after))
          = select_model (PyList (before ++ after)).
Proof.
  intros Hm.
  assert (Hs : supports_generate (PyDict d) = Ok false).
  { unfold supports_generate, py_get. cbn [rbind].
    destruct Hm as [-> | ->]; reflexivity. }
  split; [exact Hs|].
  assert (Hc : forall before after,
             candidate_names (before ++ PyDict d :: after)
             = candidate_names (before ++ after)).
  { intros before after. induction before as [|m before IH].
    - cbn [app candidate_names py_get rbind]. rewrite Hs.
      destruct (truthy _); cbn [rbind]; apply rbind_Ok.
    - cbn [app candidate_names]. now rewrite IH. }
  intros before after. split; [apply Hc|].
  unfold select_model. cbn [py_iter rbind]. now rewrite Hc.
Qed.

Lemma supports_generate_without_methods_witness :
  (supports_generate (PyDict without_methods) = Ok false
   /\ select_model (PyList ([desc "models/gemini-1.0-pro" ["generateContent"]]
                            ++ PyDict without_methods :: []))
      = Ok (PyStr "models/gemini-1.0-pro"))
  /\ (supports_generate (PyDict null_methods) = Ok false
      /\ select_model (PyList ([] ++ PyDict null_methods :: []))
         = Ok (PyStr "models/gemini-2.5-flash")).
Proof.
  split.
  - destruct (supports_generate_without_methods without_methods
                (or_introl eq_refl)) as [Hs Hrest].
    split; [exact Hs|].
    rewrite (proj2 (Hrest [desc "models/gemini-1.0-pro" ["generateContent"]]
                      [])).
    reflexivity.
  - destruct (supports_generate_without_methods null_methods
                (or_intror eq_refl)) as [Hs Hrest].
    split; [exact Hs|].
    rewrite (proj2 (Hrest [] [])). reflexivity.
Defined.

(** ** Properties of [main] *)

Section Main.

Variable env : environ.
Variable n : net.

Lemma main_missing :
  credentials_missing env -> main env n = missing_credentials.
Proof.
  unfold credentials_missing, main.
  intros [H|[H|[H|H]]]; rewrite H.
  - reflexivity.
  - destruct (env "GITHUB_TOKEN"); reflexivity.
  - destruct (env "GEMINI_API_KEY"); reflexivity.
  - destruct (env "GEMINI_API_KEY") as [key|]; [|reflexivity].
    cbn. now rewrite orb_true_r.
Qed.

Lemma main_with_credentials (key token : string) :
  credentials env key token ->
  main env n
  = triage n key token
      (environ_get_or_empty env "ISSUE_TITLE")
      (environ_get_or_empty env "ISSUE_BODY")
      (environ_get_or_empty env "REPO_FULL_NAME")
      (environ_get_or_empty env "ISSUE_NUMBER").
Proof.
  intros [Hk [Hkn [Ht Htn]]]. unfold main. rewrite Hk, Ht.
  apply String.eqb_neq in Hkn, Htn. now rewrite Hkn, Htn.
Qed.

Lemma getitem_key_raises (v : pyval) (key : string) (e : exn) :
  py_getitem_key v key = Raise e -> parse_errors (exn_cls e) = true.
Proof.
  destruct v; cbn; try (intros H; inversion H; reflexivity).
  destruct (lookup key entries); intros H; inversion H; reflexivity.
Qed.

Lemma getitem_0_raises (v : pyval) (e : exn) :
  py_getitem_0 v = Raise e -> parse_errors (exn_cls e) = true.
Proof.
  destruct v; cbn; try (intros H; inversion H; reflexivity).
  - destruct s; intros H; inversion H; reflexivity.
  - destruct items; intros H; inversion H; reflexivity.
Qed.

(** Whatever line 83 raises on a decoded value is caught at line 84. *)
Lemma checklist_of_raises (result : pyval) (e : exn) :
  checklist_of result = Raise e -> parse_errors (exn_cls e) = true.
Proof.
  unfold checklist_of.
  destruct (py_getitem_key result "candidates") as [c|e1] eqn:H1; cbn [rbind];
    [|intros H; inversion H; subst; eapply getitem_key_raises, H1].
  destruct (py_getitem_0 c) as [c0|e1] eqn:H2; cbn [rbind];
    [|intros H; inversion H; subst; eapply getitem_0_raises, H2].
  destruct (py_getitem_key c0 "content") as [content|e1] eqn:H3; cbn [rbind];
    [|intros H; inversion H; subst; eapply getitem_key_raises, H3].
  destruct (py_getitem_key content "parts") as [parts|e1] eqn:H4; cbn [rbind];
    [|intros H; inversion H; subst; eapply getitem_key_raises, H4].
  destruct (py_getitem_0 parts) as [p0|e1] eqn:H5; cbn [rbind];
    [|intros H; inversion H; subst; eapply getitem_0_raises, H5].
  apply getitem_key_raises.
Qed.

(** How lines 53-98 end, by what the remote side answers. *)
Lemma triage_outcome (key token title body repo number : string)
    (t0 : list event) (model_name : pyval) :
  discover_model n key = (t0, Val model_name) ->
  snd (triage n key token title body repo number)
  = match http_post n (generate_url model_name key) generate_headers
            (generate_payload title body) with
    | Raise e => Exc e
    | Ok response =>
        if negb (status_code response =? 200) then Exit 1
        else
          match json response with
          | Raise e => Exc e
          | Ok result =>
              match checklist_of result with
              | Raise _ => Exit 1
              | Ok ai_checklist =>
                  match http_post n (comment_url repo number)
                          (gh_headers token) (comment_data ai_checklist) with
                  | Raise e => Exc e
                  | Ok gh_response =>
                      match raise_for_status gh_response with
                      | Raise e => Exc e
                      | Ok _ => Val tt
                      end
                  end
              end
          end
    end.
Proof.
  intros Hd. unfold triage, requests_post. rewrite Hd.
  cbn [bind print lift].
  destruct (http_post n (generate_url model_name key) generate_headers
              (generate_payload title body)) as [response|e];
    [|reflexivity].
  cbn [bind lift]. destruct (negb (status_code response =? 200));
    [reflexivity|].
  cbn [bind ret]. destruct (json response) as [result|e]; [|reflexivity].
  cbn [bind lift].
  destruct (checklist_of result) as [ai_checklist|e] eqn:Hc.
  - cbn [try_except lift bind print].
    destruct (http_post n (comment_url repo number) (gh_headers token)
                (comment_data ai_checklist)) as [gh_response|e];
      [|reflexivity].
    cbn [bind lift].
    destruct (raise_for_status gh_response) as [[]|e]; reflexivity.
  - cbn [try_except lift]. now rewrite (checklist_of_raises _ _ Hc).
Qed.

End Main.

(** C7: when the API key or the GitHub token is unset (or empty), [main]
    prints the diagnostic and ends with [sys.exit(1)]; the trace holds that
    line only, so no request was sent. *)
Theorem main_missing_credentials (env : environ) (n : net) :
  credentials_missing env ->
  main env n
  = ([EvPrint [Lit "Missing GEMINI_API_KEY or GITHUB_TOKEN"]], Exit 1)
  /\ exit_status (snd (main env n)) = 1
  /\ existsb is_http (fst (main env n)) = false.
Proof.
  intros H. rewrite (main_missing env n H). repeat split.
Qed.

Lemma main_missing_credentials_witness :
  credentials_missing env_no_token
  /\ main env_no_token (world (PyList []) generation_ok comment_created)
     = ([EvPrint [Lit "Missing GEMINI_API_KEY or GITHUB_TOKEN"]], Exit 1).
Proof.
  assert (H : credentials_missing env_no_token)
    by (right; right; left; reflexivity).
  split; [exact H|].
  exact (proj1 (main_missing_credentials env_no_token
                  (world (PyList []) generation_ok comment_created) H)).
Defined.

(** C8: the status the run ends with.  Missing credentials: [sys.exit(1)].
    With credentials and the model chosen: a generation answer whose status
    is not 200 gives [sys.exit(1)]; a 200 answer whose body is not JSON
    raises out of [main], which ends the process with status 1; a decoded
    body without the text field gives [sys.exit(1)]; otherwise the comment
    is posted, and [main] returns (status 0) when that answer passes
    [raise_for_status], while the error raised by [raise_for_status], or by
    the request itself, leaves [main] uncaught (status not 0). *)
Theorem main_exit_codes (env : environ) (n : net) :
  (credentials_missing env -> snd (main env n) = Exit 1)
  /\ forall key token t0 model_name,
       credentials env key token ->
       discover_model n key = (t0, Val model_name) ->
       let generation := generation_answer env n key model_name in
       (forall r, generation = Ok r -> status_code r <> 200 ->
                  snd (main env n) = Exit 1)
       /\ (forall r e, generation = Ok r -> status_code r = 200 ->
                       json r = Raise e ->
                       snd (main env n) = Exc e
                       /\ exit_status (snd (main env n)) = 1)
       /\ (forall r result e, generation = Ok r -> status_code r = 200 ->
                              json r = Ok result ->
                              checklist_of result = Raise e ->
                              snd (main env n) = Exit 1)
       /\ (forall r result ai_checklist,
             generation = Ok r -> status_code r = 200 ->
             json r = Ok result ->
             checklist_of result = Ok ai_checklist ->
             let comment := comment_answer env n token ai_checklist in
             (forall r2, comment = Ok r2 -> raise_for_status r2 = Ok tt ->
                         snd (main env n) = Val tt
                         /\ exit_status (snd (main env n)) = 0)
             /\ (forall r2 e, comment = Ok r2 ->
                              raise_for_status r2 = Raise e ->
                              snd (main env n) = Exc e
                              /\ exit_status (snd (main env n)) <> 0)
             /\ (forall e, comment = Raise e ->
                           snd (main env n) = Exc e
                           /\ exit_status (snd (main env n)) <> 0)).
Proof.
  split.
  - intros H. now rewrite (main_missing env n H).
  - intros key token t0 model_name Hcred Hd generation. subst generation.
    unfold generation_answer.
    rewrite (main_with_credentials env n key token Hcred).
    rewrite (triage_outcome n key token _ _ _ _ t0 model_name Hd).
    split; [|split; [|split]].
    + intros r -> Hs. apply Z.eqb_neq in Hs. now rewrite Hs.
    + intros r e -> Hs Hj. now rewrite Hs, Hj.
    + intros r result e -> Hs Hj Hc. now rewrite Hs, Hj, Hc.
    + intros r result ai_checklist -> Hs Hj Hc. cbv zeta.
      unfold comment_answer. rewrite Hs, Hj, Hc. cbn [negb Z.eqb Pos.eqb].
      split; [|split].
      * intros r2 -> Hr. now rewrite Hr.
      * intros r2 e -> Hr. rewrite Hr. split; [reflexivity | discriminate].
      * intros e ->. split; [reflexivity | discriminate].
Qed.

Lemma main_exit_codes_witness :
  snd (main env_no_token (world (PyList []) generation_ok comment_created))
  = Exit 1
  /\ snd (main env_full (world (PyList []) generation_overloaded comment_created))
     = Exit 1
  /\ snd (main env_full (world (PyList []) generation_not_json comment_created))
     = Exc (mkExn JSONDecodeError "Expecting value")
  /\ snd (main env_full (world (PyList []) generation_blocked comment_created))
     = Exit 1
  /\ snd (main env_full (world (PyList []) generation_ok comment_created))
     = Val tt
  /\ snd (main env_full (world (PyList []) generation_ok comment_forbidden))
     = Exc (mkExn HTTPError "403 Client Error: Forbidden for url: ")
  /\ snd (main env_full (world (PyList []) generation_ok (Raise refused)))
     = Exc refused.
Proof.
  assert (Hcred : credentials env_full "key" "token")
    by (repeat split; discriminate || reflexivity).
  assert (Hrun : forall generation comment,
            let w := world (PyList []) generation comment in
            discover_model w "key"
            = ([EvGet (list_url "key")], Val (PyStr PREFERRED_MODEL)))
    by reflexivity.
  split; [|split; [|split; [|split; [|split; [|split]]]]].
  - apply (proj1 (main_exit_codes env_no_token _)).
    right; right; left; reflexivity.
  - pose proof (proj2 (main_exit_codes env_full _) _ _ _ _ Hcred
                  (Hrun generation_overloaded comment_created)) as H.
    cbv zeta in H. destruct H as [H _].
    apply (H _ eq_refl). discriminate.
  - pose proof (proj2 (main_exit_codes env_full _) _ _ _ _ Hcred
                  (Hrun generation_not_json comment_created)) as H.
    cbv zeta in H. destruct H as [_ [H _]].
    exact (proj1 (H _ _ eq_refl eq_refl eq_refl)).
  - pose proof (proj2 (main_exit_codes env_full _) _ _ _ _ Hcred
                  (Hrun generation_blocked comment_created)) as H.
    cbv zeta in H. destruct H as [_ [_ [H _]]].
    exact (H _ _ _ eq_refl eq_refl eq_refl eq_refl).
  - pose proof (proj2 (main_exit_codes env_full _) _ _ _ _ Hcred
                  (Hrun generation_ok comment_created)) as H.
    cbv zeta in H. destruct H as [_ [_ [_ H]]].
    destruct (H _ _ _ eq_refl eq_refl eq_refl eq_refl) as [H1 _].
    exact (proj1 (H1 _ eq_refl eq_refl)).
  - pose proof (proj2 (main_exit_codes env_full _) _ _ _ _ Hcred
                  (Hrun generation_ok comment_forbidden)) as H.
    cbv zeta in H. destruct H as [_ [_ [_ H]]].
    destruct (H _ _ _ eq_refl eq_refl eq_refl eq_refl) as [_ [H2 _]].
    exact (proj1 (H2 _ _ eq_refl eq_refl)).
  - pose proof (proj2 (main_exit_codes env_full _) _ _ _ _ Hcred
                  (Hrun generation_ok (Raise refused))) as H.
    cbv zeta in H. destruct H as [_ [_ [_ H]]].
    destruct (H _ _ _ eq_refl eq_refl eq_refl eq_refl) as [_ [_ H3]].
    exact (proj1 (H3 _ eq_refl)).
Defined.

(** ** Whole runs: the trace of [discover_model] and of [main] *)

Section Runs.

Variable env : environ.
Variable n : net.

Lemma credentials_cases :
  credentials_missing env \/ exists key token, credentials env key token.
Proof.
  unfold credentials_missing, credentials.
  destruct (env "GEMINI_API_KEY") as [key|]; [|left; left; reflexivity].
  destruct (env "GITHUB_TOKEN") as [token|];
    [|left; right; right; left; reflexivity].
  destruct (string_dec key "") as [->|Hk]; [left; right; left; reflexivity|].
  destruct (string_dec token "") as [->|Ht];
    [left; right; right; right; reflexivity|].
  right. exists key, token. auto.
Qed.

(** One request, and one printed line exactly when the [try] block raised. *)
Lemma discover_model_trace (key : string) :
  (exists v, snd (discover_model_try n key) = Val v
             /\ discover_model n key = ([list_request key], Val v))
  \/ (exists e, snd (discover_model_try n key) = Exc e
                /\ discover_model n key
                   = ([list_request key; EvPrint (warning e)],
                      Val (PyStr PREFERRED_MODEL))).
Proof.
  unfold discover_model, list_request. rewrite discover_model_try_eta.
  destruct (snd (discover_model_try n key)) as [v|e|c] eqn:H.
  - left. exists v. auto.
  - right. exists e. split; [reflexivity|]. cbn.
    now rewrite is_Exception_all.
  - exfalso. unfold discover_model_try in H.
    rewrite fetch_models_eta in H.
    destruct (snd (fetch_models n key)) as [models|e|c'] eqn:Hf; cbn in H.
    + destruct (select_model models); discriminate.
    + discriminate.
    + now apply fetch_models_no_exit in Hf.
Qed.

(** Lines 53-98 in full: the events, in order, and how the run ends, by what
    the remote side answers. *)
Lemma triage_run (key token : string) (t0 : list event) (model_name : pyval) :
  discover_model n key = (t0, Val model_name) ->
  let sending := sending_line model_name in
  let post1 := generation_request env key model_name in
  let posting := EvPrint [Lit "Posting to GitHub..."] in
  triage n key token
    (environ_get_or_empty env "ISSUE_TITLE")
    (environ_get_or_empty env "ISSUE_BODY")
    (environ_get_or_empty env "REPO_FULL_NAME")
    (environ_get_or_empty env "ISSUE_NUMBER")
  = match generation_answer env n key model_name with
    | Raise e => (t0 ++ [sending; post1], Exc e)
    | Ok response =>
        if negb (status_code response =? 200)
        then (t0 ++ [sending; post1;
                     EvPrint [Lit "Error: "; Lit (text response)]], Exit 1)
        else
          match json response with
          | Raise e => (t0 ++ [sending; post1], Exc e)
          | Ok result =>
              match checklist_of result with
              | Raise _ =>
                  (t0 ++ [sending; post1;
                          EvPrint [Lit "Error parsing Gemini response"]],
                   Exit 1)
              | Ok ai_checklist =>
                  let post2 := comment_request env token ai_checklist in
                  match comment_answer env n token ai_checklist with
                  | Raise e => (t0 ++ [sending; post1; posting; post2], Exc e)
                  | Ok gh_response =>
                      match raise_for_status gh_response with
                      | Raise e =>
                          (t0 ++ [sending; post1; posting; post2], Exc e)
                      | Ok _ =>
                          (t0 ++ [sending; post1; posting; post2;
                                  EvPrint [Lit "Done!"]], Val tt)
                      end
                  end
              end
          end
    end.
Proof.
  intros Hd. cbv zeta.
  unfold triage, requests_post, generation_answer, comment_answer,
    sending_line, generation_request, comment_request.
  rewrite Hd. cbn [bind print lift].
  destruct (http_post n (generate_url model_name key) generate_headers _)
    as [response|e]; [|reflexivity].
  cbn [bind lift app]. destruct (negb (status_code response =? 200)).
  { cbn [bind print sys_exit app]. rewrite <- ?app_assoc, ?app_nil_r; reflexivity. }
  cbn [bind ret app]. destruct (json response) as [result|e];
    [|cbn [bind lift app]; rewrite <- ?app_assoc, ?app_nil_r; reflexivity].
  cbn [bind lift].
  destruct (checklist_of result) as [ai_checklist|e] eqn:Hc.
  - cbn [try_except lift bind print app].
    destruct (http_post n (comment_url _ _) (gh_headers token) _)
      as [gh_response|e];
      [|cbn [bind lift app]; rewrite <- ?app_assoc, ?app_nil_r; reflexivity].
    cbn [bind lift app].
    destruct (raise_for_status gh_response) as [[]|e];
      cbn [bind lift app print]; rewrite <- ?app_assoc, ?app_nil_r; reflexivity.
  - cbn [try_except lift]. rewrite (checklist_of_raises _ _ Hc).
    cbn [bind print sys_exit app]. rewrite <- ?app_assoc, ?app_nil_r; reflexivity.
Qed.

End Runs.

(** Case analysis of a run of [main]: no credentials, or credentials and
    then every answer the remote side can give, with the trace explicit. *)
Ltac answer_cases env n key token :=
  cbv zeta;
  destruct (generation_answer env n key _) as [response|e1] eqn:Hgen;
  [ destruct (negb (status_code response =? 200)) eqn:Hstatus;
    [ | destruct (json response) as [result|e2] eqn:Hjson;
        [ destruct (checklist_of result) as [ai|e3] eqn:Hcl;
          [ destruct (comment_answer env n token ai) as [r2|e4] eqn:Hcom;
            [ destruct (raise_for_status r2) as [[]|e5] eqn:Hrfs | ] | ] | ] ]
  | ].

Ltac run_cases env n :=
  let key := fresh "key" in
  let token := fresh "token" in
  destruct (credentials_cases env) as [Hmiss | [key [token Hcred]]];
  [ rewrite (main_missing env n Hmiss)
  | rewrite (main_with_credentials env n key token Hcred);
    destruct (discover_model_trace n key)
      as [[model [Htry Hd]] | [exc [Htry Hd]]];
    rewrite (triage_run env n key token _ _ Hd);
    answer_cases env n key token ].

Ltac unfold_events :=
  unfold missing_credentials, list_request, sending_line, generation_request,
    comment_request, warning, generate_url, GENERATE_PATH, comment_url,
    generate_headers, gh_headers in *.

(** No event of an explicit trace is the one looked for. *)
Ltac absent H :=
  unfold_events; cbn [fst In app bind print sys_exit] in H;
  repeat (destruct H as [H|H]; [discriminate H|]);
  try contradiction.

Lemma status_200 (r : response) :
  negb (status_code r =? 200) = false -> status_code r = 200.
Proof. intros H. apply negb_false_iff in H. now apply Z.eqb_eq. Qed.

(** ** Further properties of [main] *)

(** X1: the requests of a run come in a fixed order.  Without credentials
    there is none; with them they are an initial part of: the model-list
    request, a generation request, the comment request.  So a run sends at
    most three requests, never the comment before the generation request,
    never the generation request before the model list; and a generation
    request is for the model [discover_model] returned. *)
Theorem main_request_order (env : environ) (n : net) :
  (credentials_missing env /\ http_events (fst (main env n)) = [])
  \/ exists key token,
       credentials env key token
       /\ (exists model_name ai_checklist rest,
             [list_request key; generation_request env key model_name;
              comment_request env token ai_checklist]
             = http_events (fst (main env n)) ++ rest)
       /\ (forall m, In (generation_request env key m) (fst (main env n)) ->
                     snd (discover_model n key) = Val m).
Proof.
  run_cases env n; [left; split; [exact Hmiss | reflexivity] | ..];
    right; exists key, token; (split; [exact Hcred|]);
    (split;
     [ eexists; first [ exists ai | exists PyNone ]; eexists;
       unfold http_events;
       cbn [fst filter app is_http list_request sending_line
              generation_request comment_request];
       reflexivity
     | intros m H; rewrite Hd; cbn [snd];
       unfold_events; cbn [fst In app] in H;
       repeat (destruct H as [H|H]; [try discriminate H|]);
       try contradiction; inversion H; reflexivity ]).
Qed.

(** X2: with credentials, the comment request is sent exactly when the
    generation answer has status 200, its body decodes, and line 83 finds a
    value in it; the request then carries the GitHub headers and that value
    under the fixed header line. *)
Theorem comment_sent_iff_generated (env : environ) (n : net)
    (key token : string) (model_name : pyval) :
  credentials env key token ->
  snd (discover_model n key) = Val model_name ->
  forall headers body,
    In (EvPost (comment_url (environ_get_or_empty env "REPO_FULL_NAME")
                            (environ_get_or_empty env "ISSUE_NUMBER"))
               headers body)
       (fst (main env n))
    <-> exists r result ai_checklist,
          generation_answer env n key model_name = Ok r
          /\ status_code r = 200
          /\ json r = Ok result
          /\ checklist_of result = Ok ai_checklist
          /\ headers = gh_headers token
          /\ body = comment_data ai_checklist.
Proof.
  intros Hcred Hmodel headers body.
  rewrite (main_with_credentials env n key token Hcred).
  destruct (discover_model_trace n key)
    as [[model [Htry Hd]] | [exc [Htry Hd]]];
    rewrite Hd in Hmodel; cbn [snd] in Hmodel; inversion Hmodel; subst;
    rewrite (triage_run env n key token _ _ Hd);
    answer_cases env n key token;
    (split;
     [ intros H
     | intros [r [res [v [Hr [Hs [Hj [Hc [Hh Hb]]]]]]]]; subst headers body;
       inversion Hr; subst r;
       try (apply Z.eqb_eq in Hs; rewrite Hs in Hstatus; discriminate);
       try (rewrite Hj in Hjson; inversion Hjson; subst res;
            rewrite Hc in Hcl; inversion Hcl; subst v);
       try discriminate;
       unfold comment_request; cbn [fst In app]; auto 10 ]);
    try (absent H; fail);
    (exists response, result, ai;
     repeat (split; [first [reflexivity | now apply status_200]|]);
     unfold_events; cbn [fst In app] in H;
     repeat (destruct H as [H|H]; [try discriminate H|]);
     try contradiction; inversion H; auto).
Qed.

Lemma env_full_credentials : credentials env_full "key" "token".
Proof. repeat split; discriminate || reflexivity. Qed.

Lemma comment_sent_iff_generated_witness :
  In (comment_request env_full "token" (PyStr "- [ ] reproduce"))
     (fst (main env_full (world (PyList []) generation_ok comment_forbidden))).
Proof.
  apply (proj2 (comment_sent_iff_generated env_full
                  (world (PyList []) generation_ok comment_forbidden)
                  "key" "token" (PyStr PREFERRED_MODEL)
                  env_full_credentials eq_refl _ _)).
  exists (ok_response (generated "- [ ] reproduce")),
    (generated "- [ ] reproduce"), (PyStr "- [ ] reproduce").
  repeat split.
Defined.



(** X4: "Done!" is printed exactly when [main] runs to its end. *)
Theorem done_iff_completed (env : environ) (n : net) :
  In (EvPrint [Lit "Done!"]) (fst (main env n))
  <-> snd (main env n) = Val tt.
Proof.
  run_cases env n;
    (split; [intros H | intros Hv; try discriminate Hv]);
    try (absent H; fail);
    try reflexivity;
    cbn [fst In app]; auto 10.
Qed.

(** X5: whenever [main] ends through [sys.exit], the code is 1 and the last
    thing it did was to print a line: no silent exit, no other code. *)
Theorem exit_is_1_after_a_print (env : environ) (n : net) (code : Z) :
  snd (main env n) = Exit code ->
  code = 1
  /\ exists before line, fst (main env n) = before ++ [EvPrint line].
Proof.
  run_cases env n; intros H; try discriminate H;
    cbn [snd] in H; inversion H; (split; [reflexivity|]);
    unfold missing_credentials; cbn [fst app bind print sys_exit];
    match goal with
    | |- exists before line, ?l = _ => exists (removelast l)
    end; eexists; reflexivity.
Qed.

Lemma exit_is_1_after_a_print_witness :
  1 = 1
  /\ exists before line,
       fst (main env_full (world (PyList []) generation_blocked comment_created))
       = before ++ [EvPrint line].
Proof.
  exact (exit_is_1_after_a_print env_full
           (world (PyList []) generation_blocked comment_created) 1 eq_refl).
Defined.

(** X7: when the model-list fetch fails, a run with credentials still goes
    on: it prints the warning and sends the generation request for the
    fallback model. *)
Theorem failed_fetch_still_generates (env : environ) (n : net)
    (key token : string) (e : exn) :
  credentials env key token ->
  snd (fetch_models n key) = Exc e ->
  exists rest,
    fst (main env n)
    = [list_request key; EvPrint (warning e);
       sending_line (PyStr "models/gemini-2.5-flash");
       generation_request env key (PyStr "models/gemini-2.5-flash")] ++ rest.
Proof.
  intros Hcred Hf.
  rewrite (main_with_credentials env n key token Hcred).
  rewrite (triage_run env n key token _ _
             (discover_model_fetch_failed n key e Hf)).
  answer_cases env n key token; eexists; reflexivity.
Qed.

Lemma failed_fetch_still_generates_witness :
  exists rest,
    fst (main env_full unreachable)
    = [list_request "key"; EvPrint (warning refused);
       sending_line (PyStr "models/gemini-2.5-flash");
       generation_request env_full "key" (PyStr "models/gemini-2.5-flash")]
      ++ rest.
Proof.
  exact (failed_fetch_still_generates env_full unreachable "key" "token"
           refused env_full_credentials eq_refl).
Defined.

(** ** Further properties of [discover_model] *)

Lemma candidate_names_non_object (ms : list pyval) (x : pyval) :
  In x ms -> (forall d, x <> PyDict d) ->
  exists e, candidate_names ms = Raise e.
Proof.
  intros Hin Hx. induction ms as [|m ms IH]; [destruct Hin|].
  cbn [candidate_names].
  destruct (py_get m "name" PyNone) as [name|e] eqn:Hn; cbn [rbind]; [|eauto].
  destruct (if truthy name then supports_generate m else Ok false)
    as [keep|e]; cbn [rbind]; [|eauto].
  destruct Hin as [->|Hin].
  - destruct x; try discriminate Hn. now destruct (Hx entries).
  - destruct (IH Hin) as [e ->]. cbn [rbind]. eauto.
Qed.

(** X9: one entry of the fetched list that is not an object (null, a
    number, a string, an array) discards the whole list: whatever the
    other entries are, the function prints a warning and returns the
    fallback. *)
Theorem non_object_entry_forces_fallback (n : net) (key : string)
    (ms : list pyval) (x : pyval) :
  snd (fetch_models n key) = Val (PyList ms) ->
  In x ms ->
  (forall d, x <> PyDict d) ->
  exists e,
    discover_model n key
    = ([list_request key; EvPrint (warning e)],
       Val (PyStr "models/gemini-2.5-flash")).
Proof.
  intros Hf Hin Hx.
  destruct (candidate_names_non_object ms x Hin Hx) as [e He].
  exists e. rewrite (discover_model_fetched n key _ Hf).
  unfold select_model. cbn [py_iter rbind]. now rewrite He.
Qed.

Lemma non_object_entry_forces_fallback_witness :
  exists e,
    discover_model (serving (PyList with_null_entry)) "key"
    = ([list_request "key"; EvPrint (warning e)],
       Val (PyStr "models/gemini-2.5-flash")).
Proof.
  apply (non_object_entry_forces_fallback (serving (PyList with_null_entry))
           "key" with_null_entry PyNone eq_refl).
  - right. left. reflexivity.
  - intros d H. discriminate H.
Defined.

Lemma any_in_stops (needle : string) (before after : list pyval) (s : string) :
  forallb is_str before = true ->
  contains needle s = true ->
  any_in needle (before ++ PyStr s :: after) = Ok true.
Proof.
  intros Hb Hs. induction before as [|x before IH].
  - cbn [app any_in py_in rbind]. now rewrite Hs.
  - cbn [forallb] in Hb. apply andb_true_iff in Hb as [Hx Hb].
    destruct x; try discriminate Hx.
    cbn [app any_in py_in rbind].
    destruct (contains needle s0); [reflexivity | exact (IH Hb)].
Qed.

(** X10: [supports_generate] stops at the first entry that contains
    "generateContent": when the entries before it are strings, the answer
    is [True] whatever follows, even values on which the test would
    raise. *)
Theorem supports_generate_stops_at_first_match
    (d : list (string * pyval)) (before after : list pyval) (s : string) :
  lookup "supportedGenerationMethods" d
  = Some (PyList (before ++ PyStr s :: after)) ->
  forallb is_str before = true ->
  contains "generateContent" s = true ->
  supports_generate (PyDict d) = Ok true.
Proof.
  intros Hl Hb Hs. unfold supports_generate, py_get. cbn [rbind].
  rewrite Hl. unfold py_or.
  assert (Ht : truthy (PyList (before ++ PyStr s :: after)) = true)
    by (destruct before; reflexivity).
  rewrite Ht. cbn [py_iter rbind]. now apply any_in_stops.
Qed.

Lemma supports_generate_stops_at_first_match_witness :
  supports_generate (PyDict methods_then_number) = Ok true
  /\ py_in "generateContent" (PyInt 3)
     = Raise (mkExn TypeError "argument of type 'int' is not iterable").
Proof.
  split; [|reflexivity].
  exact (supports_generate_stops_at_first_match methods_then_number
           [PyStr "countTokens"] [PyInt 3] "generateContent"
           eq_refl eq_refl eq_refl).
Defined.

(** X11: line 83 finds a value exactly when the decoded body has the
    expected shape (objects at the keyed steps, non-empty arrays at the
    indexed ones), and the value is then the one under "text", of whatever
    type; later candidates and parts are not looked at. *)
Theorem checklist_of_shape (result v : pyval) :
  checklist_of result = Ok v <-> text_field result = Some v.
Proof.
  unfold checklist_of, text_field.
  destruct result; cbn [py_getitem_key rbind]; try (split; discriminate).
  destruct (lookup "candidates" entries) as [c|]; cbn [rbind];
    [|split; discriminate].
  destruct c; cbn [py_getitem_0 rbind]; try (split; discriminate).
  { destruct s; cbn [rbind py_getitem_key]; split; discriminate. }
  destruct items as [|c0 ?]; cbn [rbind]; [split; discriminate|].
  destruct c0; cbn [py_getitem_key rbind]; try (split; discriminate).
  destruct (lookup "content" entries0) as [content|]; cbn [rbind];
    [|split; discriminate].
  destruct content; cbn [py_getitem_key rbind]; try (split; discriminate).
  destruct (lookup "parts" entries1) as [parts|]; cbn [rbind];
    [|split; discriminate].
  destruct parts; cbn [py_getitem_0 rbind]; try (split; discriminate).
  { destruct s; cbn [rbind py_getitem_key]; split; discriminate. }
  destruct items0 as [|p0 ?]; cbn [rbind]; [split; discriminate|].
  destruct p0; cbn [py_getitem_key]; try (split; discriminate).
  destruct (lookup "text" entries2); split; intros H; inversion H;
    reflexivity.
Qed.

Lemma checklist_of_shape_witness :
  checklist_of (generated "- [ ] reproduce") = Ok (PyStr "- [ ] reproduce").
Proof.
  exact (proj2 (checklist_of_shape (generated "- [ ] reproduce")
                  (PyStr "- [ ] reproduce")) eq_refl).
Defined.

Lemma filtered_names_app (ms more : list pyval) :
  filtered_names (ms ++ more) = filtered_names ms ++ filtered_names more.
Proof. unfold filtered_names. now rewrite filter_app, map_app. Qed.

(** X12: for a fetched list of well-formed descriptors, whenever some
    filtered name contains "flash" the returned name is a filtered name
    that contains "flash". *)
Theorem flash_when_available (n : net) (key : string) (ms : list pyval) :
  snd (fetch_models n key) = Val (PyList ms) ->
  forallb wf_descriptor ms = true ->
  some_with (contains "flash") (filtered_names ms) ->
  exists v,
    snd (discover_model n key) = Val (PyStr v)
    /\ In v (filtered_names ms)
    /\ contains "flash" v = true.
Proof.
  intros Hf Hwf Hsome. exists (preferred (filtered_names ms)).
  rewrite (discover_model_fetched n key _ Hf), (select_model_wf ms Hwf).
  split; [reflexivity|]. unfold preferred.
  destruct (filter (contains "gemini-2.5-flash") (filtered_names ms))
    as [|x rest] eqn:H25.
  - destruct (filter_some _ _ Hsome) as [y [rest Hy]]. rewrite Hy.
    assert (In y (filter (contains "flash") (filtered_names ms))) as Hin
      by (rewrite Hy; now left).
    now apply filter_In in Hin.
  - assert (In x (filter (contains "gemini-2.5-flash") (filtered_names ms)))
      as Hin by (rewrite H25; now left).
    apply filter_In in Hin as [Hin Hx].
    split; [exact Hin | now apply contains_flash_25].
Qed.

Lemma flash_when_available_witness :
  exists v,
    snd (discover_model (serving (PyList flash_after_pro)) "key")
    = Val (PyStr v)
    /\ In v (filtered_names flash_after_pro)
    /\ contains "flash" v = true.
Proof.
  apply (flash_when_available (serving (PyList flash_after_pro)) "key"
           flash_after_pro eq_refl eq_refl).
  exists "models/gemini-1.5-flash". split; [|reflexivity].
  right. left. reflexivity.
Defined.

(** X13: once a filtered name contains "gemini-2.5-flash", descriptors
    added after the end of the list do not change the selection. *)
Theorem appended_models_keep_flash_25 (ms more : list pyval) :
  forallb wf_descriptor ms = true ->
  forallb wf_descriptor more = true ->
  some_with (contains "gemini-2.5-flash") (filtered_names ms) ->
  select_model (PyList (ms ++ more)) = select_model (PyList ms).
Proof.
  intros Hms Hmore Hsome.
  rewrite (select_model_wf ms Hms).
  rewrite (select_model_wf (ms ++ more))
    by (rewrite forallb_app, Hms, Hmore; reflexivity).
  rewrite filtered_names_app. unfold preferred. rewrite filter_app.
  destruct (filter_some _ _ Hsome) as [x [rest ->]]. reflexivity.
Qed.

Lemma appended_models_keep_flash_25_witness :
  select_model (PyList ([desc "models/gemini-2.5-flash-lite" ["generateContent"]]
                        ++ flash_after_pro))
  = select_model (PyList [desc "models/gemini-2.5-flash-lite"
                            ["generateContent"]]).
Proof.
  apply (appended_models_keep_flash_25
           [desc "models/gemini-2.5-flash-lite" ["generateContent"]]
           flash_after_pro eq_refl eq_refl).
  exists "models/gemini-2.5-flash-lite". split; [left|]; reflexivity.
Defined.

Lemma filter_wf (p : pyval -> bool) (ms : list pyval) :
  forallb wf_descriptor ms = true ->
  forallb wf_descriptor (filter p ms) = true.
Proof.
  rewrite !forallb_forall. intros H x Hx. apply filter_In in Hx as [Hx _].
  now apply H.
Qed.

Lemma filter_idem (p : pyval -> bool) (ms : list pyval) :
  filter p (filter p ms) = filter p ms.
Proof.
  induction ms as [|m ms IH]; [reflexivity|]. cbn [filter].
  destruct (p m) eqn:Hp; [|exact IH]. cbn [filter]. now rewrite Hp, IH.
Qed.

(** X14: on well-formed descriptors the selection depends on the
    candidates only: dropping every descriptor that has no name, an empty
    name, or no entry containing "generateContent" gives the same result. *)
Theorem non_candidates_do_not_matter (ms : list pyval) :
  forallb wf_descriptor ms = true ->
  select_model (PyList ms) = select_model (PyList (filter is_candidate ms)).
Proof.
  intros Hwf.
  rewrite (select_model_wf ms Hwf).
  rewrite (select_model_wf _ (filter_wf is_candidate ms Hwf)).
  unfold filtered_names. now rewrite filter_idem.
Qed.

Lemma non_candidates_do_not_matter_witness :
  select_model (PyList flash_after_pro)
  = select_model (PyList [desc "models/gemini-1.0-pro" ["generateContent"];
                          desc "models/gemini-1.5-flash" ["generateContent"]]).
Proof.
  exact (non_candidates_do_not_matter flash_after_pro eq_refl).
Defined.
